(** * searx.botdetection.link_token

    A shallow embedding of [searx/botdetection/link_token.py] and the
    properties of its four entry points: [get_token], [token_is_valid],
    [ping] and [is_suspicious].

    Conventions of the embedding.
    - A Python [str] is represented by the bytes of its UTF-8 form, so
      [str] and [bytes] are both Rocq strings; [bytes.decode('UTF-8')]
      and the Redis client's encoding of a [str] argument are then the
      identity on well-formed UTF-8 and raise otherwise.
    - The Redis server is a finite map from keys to entries with an
      optional deadline, together with the server clock (in seconds).
    - [redisdb.client()] is [None] when the store is not available.
    - The functions of the module run in a state-and-exception monad
      [Py] over the [World]: the store, the random source and the log. *)

From Stdlib Require Import ZArith NArith String Ascii List Lia.
From stdpp Require Import base option gmap strings pretty.

Local Open Scope string_scope.
Local Open Scope Z_scope.

(** ** Python strings and bytes *)

Abbreviation str := string (only parsing).
Abbreviation bytes := string (only parsing).

(** Strict UTF-8 (RFC 3629), as checked by [bytes.decode('UTF-8')] and
    [str.encode('utf-8')]: [need] continuation bytes are still expected and
    the next one has to lie in [lo..hi]. *)
Fixpoint utf8_scan (need : nat) (lo hi : N) (s : string) : bool :=
  match s with
  | EmptyString => Nat.eqb need 0
  | String c s' =>
      let b := N_of_ascii c in
      match need with
      | O =>
          if (b <? 128)%N then utf8_scan 0 128 191 s'
          else if ((194 <=? b) && (b <=? 223))%N then utf8_scan 1 128 191 s'
          else if (b =? 224)%N then utf8_scan 2 160 191 s'
          else if (b =? 237)%N then utf8_scan 2 128 159 s'
          else if ((225 <=? b) && (b <=? 239))%N then utf8_scan 2 128 191 s'
          else if (b =? 240)%N then utf8_scan 3 144 191 s'
          else if ((241 <=? b) && (b <=? 243))%N then utf8_scan 3 128 191 s'
          else if (b =? 244)%N then utf8_scan 3 128 143 s'
          else false
      | S n =>
          if ((lo <=? b) && (b <=? hi))%N then utf8_scan n 128 191 s'
          else false
      end
  end.

Definition utf8_valid (s : string) : bool := utf8_scan 0 128 191 s.

(** Truth value of an [Optional[bytes]]: [None] and [b''] are false. *)
Definition truthy (v : option bytes) : bool :=
  match v with
  | None => false
  | Some "" => false
  | Some _ => true
  end.

(** [str(b)] for a [bool], as substituted for [%s] in a log message. *)
Definition str_of_bool (b : bool) : str := if b then "True" else "False".

(** ** The Redis store *)

Record Entry := { value : bytes; deadline : option Z }.

Record Redis := { now : Z; db : gmap string Entry }.

Definition live (t : Z) (e : Entry) : bool :=
  match deadline e with
  | None => true
  | Some d => t <? d
  end.

(** [GET key] *)
Definition GET (k : string) (r : Redis) : option bytes :=
  match db r !! k with
  | Some e => if live (now r) e then Some (value e) else None
  | None => None
  end.

(** [SET key value EX seconds] *)
Definition SET (k : string) (v : bytes) (ex : Z) (r : Redis) : Redis :=
  {| now := now r;
     db := <[k := {| value := v; deadline := Some (now r + ex) |}]> (db r) |}.

(** [TTL key]: remaining seconds, [-1] without expiry, [-2] without key. *)
Definition TTL (k : string) (r : Redis) : Z :=
  match db r !! k with
  | Some e =>
      if live (now r) e then
        match deadline e with
        | Some d => d - now r
        | None => -1
        end
      else -2
  | None => -2
  end.

(** The server clock moves on by [d] seconds. *)
Definition advance (d : Z) (r : Redis) : Redis :=
  {| now := now r + d; db := db r |}.

(** ** The world and the monad *)

Inductive Level := DEBUG | WARNING.

Record LogRecord := { levelname : Level; message : str }.

Record World := {
  redisdb : option Redis;   (* the store behind [redisdb.client()] *)
  random : nat -> nat;      (* the draws [random] will make, in order *)
  log : list LogRecord      (* the records handed to [logger] *)
}.

Inductive exn :=
| UnicodeDecodeError
| UnicodeEncodeError
| IndexError
| ConnectionError.

Inductive Result (A : Type) :=
| Return (a : A) (w : World)
| Raise (e : exn) (w : World).
Arguments Return {A} a w.
Arguments Raise {A} e w.

Definition Py (A : Type) : Type := World -> Result A.

Definition ret {A} (a : A) : Py A := fun w => Return a w.

Definition bind {A B} (m : Py A) (f : A -> Py B) : Py B :=
  fun w =>
    match m w with
    | Return a w' => f a w'
    | Raise e w' => Raise e w'
    end.

Definition raise {A} (e : exn) : Py A := fun w => Raise e w.

Notation "'let*' x ':=' m 'in' k" := (bind m (fun x => k))
  (at level 10, x name, m at level 100, k at level 200).
Notation "'do' m 'in' k" := (bind m (fun _ => k))
  (at level 10, m at level 100, k at level 200).

(** What a run returned, if it returned, and the world it left. *)
Definition returned {A} (res : Result A) : option A :=
  match res with
  | Return a _ => Some a
  | Raise _ _ => None
  end.

Definition world_of {A} (res : Result A) : World :=
  match res with
  | Return _ w => w
  | Raise _ w => w
  end.

(** The clock of the store behind the world moves on by [d] seconds. *)
Definition elapse (d : Z) (w : World) : World :=
  {| redisdb := advance d <$> redisdb w; random := random w; log := log w |}.

(** *** The Redis client *)

Inductive RedisClient := Client.

(** [redisdb.client()] *)
Definition redisdb_client : Py (option RedisClient) :=
  fun w =>
    match redisdb w with
    | Some _ => Return (Some Client) w
    | None => Return None w
    end.

(** What the client accepts as a value: a [str] or an [int]. *)
Inductive RedisArg := ArgStr (s : str) | ArgInt (n : Z).

Definition encode (a : RedisArg) : Py bytes :=
  match a with
  | ArgStr s => if utf8_valid s then ret s else raise UnicodeEncodeError
  | ArgInt n => ret (pretty n)
  end.

(** [redis_client.get(key)] *)
Definition redis_get (c : RedisClient) (k : str) : Py (option bytes) :=
  fun w =>
    match redisdb w with
    | Some r => Return (GET k r) w
    | None => Raise ConnectionError w
    end.

(** [redis_client.set(key, value, ex=seconds)] *)
Definition redis_set (c : RedisClient) (k : str) (a : RedisArg) (ex : Z)
  : Py unit :=
  let* v := encode a in
  fun w =>
    match redisdb w with
    | Some r =>
        Return tt {| redisdb := Some (SET k v ex r);
                     random := random w; log := log w |}
    | None => Raise ConnectionError w
    end.

(** *** random *)

(** [random._randbelow(n)] *)
Definition randbelow (n : nat) : Py nat :=
  fun w =>
    Return (random w 0 mod n)%nat
      {| redisdb := redisdb w;
         random := fun i => random w (S i); log := log w |}.

(** [random.choice(seq)] for a sequence of ASCII characters. *)
Definition choice (seq : str) : Py ascii :=
  if Nat.eqb (String.length seq) 0 then raise IndexError
  else
    let* i := randbelow (String.length seq) in
    match String.get i seq with
    | Some c => ret c
    | None => raise IndexError
    end.

(** *** logger *)

Definition logger_emit (l : Level) (msg : str) : Py unit :=
  fun w =>
    Return tt
      {| redisdb := redisdb w; random := random w;
         log := log w ++ [{| levelname := l; message := msg |}] |}.

Definition logger_debug := logger_emit DEBUG.
Definition logger_warning := logger_emit WARNING.

(** ** The module *)

(** What [is_suspicious] and [get_ping_key] read of an
    [IPv4Network | IPv6Network]. *)
Record Network := { compressed : str }.

(** A [flask.Request]: its headers, by name. *)
Record Request := { headers : gmap string str }.

(** [request.headers.get(name, default)] *)
Definition headers_get (req : Request) (name : string) (dflt : str) : str :=
  default dflt (headers req !! name).

Definition TOKEN_LIVE_TIME : Z := 600.
Definition PING_LIVE_TIME : Z := 3600.
Definition PING_KEY : str := "SearXNG_limiter.ping".
Definition TOKEN_KEY : str := "SearXNG_limiter.token".

(** [string.ascii_lowercase] and [string.digits] *)
Definition ascii_lowercase : str := "abcdefghijklmnopqrstuvwxyz".
Definition digits : str := "0123456789".

(** [''.join(random.choice(seq) for _ in range(n))] *)
Fixpoint join_choice (seq : str) (n : nat) : Py str :=
  match n with
  | O => ret ""
  | S n' =>
      let* c := choice seq in
      let* s := join_choice seq n' in
      ret (String c s)
  end.

(** [token.decode('UTF-8')] *)
Definition decode (b : bytes) : Py str :=
  if utf8_valid b then ret b else raise UnicodeDecodeError.

Definition get_token : Py str :=
  let* redis_client := redisdb_client in
  match redis_client with
  | None => ret "12345678"
  | Some redis_client =>
      let* token := redis_get redis_client TOKEN_KEY in
      if truthy token then
        decode (default "" token)   (* [token] is [Some _] here *)
      else
        let* token := join_choice (ascii_lowercase +:+ digits) 16 in
        do redis_set redis_client TOKEN_KEY (ArgStr token) TOKEN_LIVE_TIME in
        ret token
  end.

Definition token_is_valid (token : str) : Py bool :=
  let* current := get_token in
  let valid := String.eqb token current in
  do logger_debug ("token is valid --> " +:+ str_of_bool valid) in
  ret valid.

Section link_token.

(** The collaborators of the module that live elsewhere in [searx]:
    [searx.redislib.secret_hash], [limiter.get_cfg] and the two helpers
    of [searx.botdetection._helpers]. *)
Variable secret_hash : str -> str.
Variable Config : Type.
Variable get_cfg : Config.
Variable get_real_ip : Request -> str.
Variable get_network : str -> Config -> Network.

Definition get_ping_key (network : Network) (request : Request) : str :=
  PING_KEY
  +:+ "["
  +:+ secret_hash
        (compressed network
         +:+ headers_get request "Accept-Language" ""
         +:+ headers_get request "User-Agent" "")
  +:+ "]".

Definition is_suspicious (network : Network) (request : Request)
  (renew : bool) : Py bool :=
  let* redis_client := redisdb_client in
  match redis_client with
  | None => ret false
  | Some redis_client =>
      let ping_key := get_ping_key network request in
      let* found := redis_get redis_client ping_key in
      if negb (truthy found) then
        do logger_warning
             ("missing ping (IP: " +:+ compressed network
              +:+ ") / request: " +:+ ping_key) in
        ret true
      else
        do (if renew
            then redis_set redis_client ping_key (ArgInt 1) PING_LIVE_TIME
            else ret tt) in
        do logger_debug
             ("found ping for (client) network " +:+ compressed network
              +:+ " -> " +:+ ping_key) in
        ret false
  end.

Definition ping (request : Request) (token : str) : Py unit :=
  let* redis_client := redisdb_client in
  match redis_client with
  | None => ret tt
  | Some redis_client =>
      let* valid := token_is_valid token in
      if negb valid then ret tt
      else
        let cfg := get_cfg in
        let real_ip := get_real_ip request in
        let network := get_network real_ip cfg in
        let ping_key := get_ping_key network request in
        do logger_debug
             ("store ping_key for (client) network " +:+ compressed network
              +:+ " (IP " +:+ real_ip +:+ ") -> " +:+ ping_key) in
        redis_set redis_client ping_key (ArgInt 1) PING_LIVE_TIME
  end.

(** One step in the life of the world: a call of an entry point of the
    module, or time passing. *)
Inductive step : World -> World -> Prop :=
| step_get_token w :
    step w (world_of (get_token w))
| step_token_is_valid token w :
    step w (world_of (token_is_valid token w))
| step_is_suspicious network request renew w :
    step w (world_of (is_suspicious network request renew w))
| step_ping request token w :
    step w (world_of (ping request token w))
| step_elapse d w :
    0 <= d -> step w (elapse d w).

End link_token.

(** ** Sample worlds *)

Definition no_store : World :=
  {| redisdb := None; random := fun i => i; log := [] |}.

Definition empty_redis : Redis := {| now := 0; db := ∅ |}.

Definition empty_store : World :=
  {| redisdb := Some empty_redis;
     random := fun i => (7 * i + 3)%nat; log := [] |}.

(** A reachable store that holds a token with 500 seconds to live. *)
Definition token_redis : Redis :=
  {| now := 100;
     db := {[ TOKEN_KEY := {| value := "dkry5cjqx4bipw3a";
                              deadline := Some 600 |} ]} |}.

Definition token_store : World :=
  {| redisdb := Some token_redis; random := fun i => i; log := [] |}.

(** Stand-ins for the collaborators, and the request of a browser in
    [203.0.113.0/24]. *)
Definition sample_hash (name : str) : str := pretty (String.length name).

Definition sample_real_ip (request : Request) : str :=
  headers_get request "X-Forwarded-For" "".

Definition sample_network_of (real_ip : str) (cfg : unit) : Network :=
  {| compressed := "203.0.113.0/24" |}.

Definition sample_network : Network := {| compressed := "203.0.113.0/24" |}.

Definition sample_request : Request :=
  {| headers :=
       <["Accept-Language" := "en-US"]>
         (<["User-Agent" := "TestBot/1.0"]>
            (<["X-Forwarded-For" := "203.0.113.7"]> ∅)) |}.

(** The same browser, from another address of the network. *)
Definition sample_request' : Request :=
  {| headers :=
       <["Accept-Language" := "en-US"]>
         (<["User-Agent" := "TestBot/1.0"]>
            (<["X-Forwarded-For" := "203.0.113.99"]> ∅)) |}.

(** A reachable store that holds the ping record of the sample request with
    1000 seconds to live. *)
Definition ping_redis : Redis :=
  {| now := 0;
     db := {[ get_ping_key sample_hash sample_network sample_request :=
                {| value := "1"; deadline := Some 1000 |} ]} |}.

Definition ping_store : World :=
  {| redisdb := Some ping_redis; random := fun i => i; log := [] |}.

(** A store whose token entry holds bytes that are not UTF-8. *)
Definition garbled_store : World :=
  {| redisdb :=
       Some {| now := 0;
               db := {[ TOKEN_KEY :=
                          {| value := String (ascii_of_nat 255) "";
                             deadline := None |} ]} |};
     random := fun i => i; log := [] |}.

(** ** Predicates used in the statements *)

(** A lowercase letter or a digit. *)
Definition lowercase_alnum (c : ascii) : bool :=
  let n := N_of_ascii c in
  (((97 <=? n) && (n <=? 122)) || ((48 <=? n) && (n <=? 57)))%N.

(** The shape of a generated token: sixteen lowercase alphanumerics. *)
Definition is_token (s : str) : bool :=
  Nat.eqb (String.length s) 16
  && forallb lowercase_alnum (list_ascii_of_string s).

(** The token entry, when there is a live one, holds the empty value or a
    string of the shape [get_token] generates. *)
Definition stored_token_ok (r : Redis) : bool :=
  match GET TOKEN_KEY r with
  | Some b => String.eqb b "" || is_token b
  | None => true
  end.

Definition world_token_ok (w : World) : bool :=
  match redisdb w with
  | Some r => stored_token_ok r
  | None => true
  end.

(** The token entry, when there is a live one, holds UTF-8 text. *)
Definition token_decodable (w : World) : bool :=
  match redisdb w with
  | Some r =>
      match GET TOKEN_KEY r with
      | Some b => utf8_valid b
      | None => true
      end
  | None => true
  end.

(** [w'] differs from [w] at most in the random source: drawing touches
    neither the store nor the log. *)
Definition only_draws (w w' : World) : Prop :=
  redisdb w' = redisdb w /\ log w' = log w.

(** Every entry of the store expires: the token within [TOKEN_LIVE_TIME]
    seconds, any other entry within [PING_LIVE_TIME] seconds. *)
Definition expiring (r : Redis) : Prop :=
  forall k e,
    db r !! k = Some e ->
    exists dl,
      deadline e = Some dl
      /\ dl <= now r + (if String.eqb k TOKEN_KEY then TOKEN_LIVE_TIME
                        else PING_LIVE_TIME).

Definition world_expiring (w : World) : Prop :=
  match redisdb w with
  | Some r => expiring r
  | None => True
  end.

(** ** Further sample data *)

(** A stand-in for [secret_hash] that has no collisions. *)
Definition plain_hash (name : str) : str := name.

(** Two browsers of the sample network whose headers differ but read the
    same when written one after the other. *)
Definition split_request_a : Request :=
  {| headers := <["Accept-Language" := "en"]> (<["User-Agent" := "x"]> ∅) |}.

Definition split_request_b : Request :=
  {| headers := <["Accept-Language" := "e"]> (<["User-Agent" := "nx"]> ∅) |}.

(** The store of [garbled_store]. *)
Definition garbled_redis : Redis :=
  {| now := 0;
     db := {[ TOKEN_KEY := {| value := String (ascii_of_nat 255) "";
                              deadline := None |} ]} |}.

(** The world after the first token has been generated in the empty store,
    ten seconds have passed and the sample browser has sent its probe. *)
Definition busy_store : World :=
  world_of (ping sample_hash unit tt sample_real_ip sample_network_of
              sample_request "dkry5cjqx4bipw3a"
              (elapse 10 (world_of (get_token empty_store)))).

(** A reachable store whose entry at the ping key of the sample request
    holds the empty value. *)
Definition blank_ping_redis : Redis :=
  {| now := 0;
     db := {[ get_ping_key sample_hash sample_network sample_request :=
                {| value := ""; deadline := Some 1000 |} ]} |}.

Definition blank_ping_store : World :=
  {| redisdb := Some blank_ping_redis; random := fun i => i; log := [] |}.

(** * Properties *)

(** Unfold the monad and the client calls, then use what is known of the
    store at each step. *)
Ltac py_unfold :=
  cbv beta iota delta
    [bind ret raise redisdb_client redis_get redis_set encode decode
     logger_debug logger_warning logger_emit].

Ltac py_store H := rewrite ?H; cbv beta iota.

(** ** Strings *)

Lemma get_In (s : string) (i : nat) (c : ascii) :
  String.get i s = Some c -> In c (list_ascii_of_string s).
Proof.
  revert i; induction s as [|a s IH]; intros i H; simpl in *.
  - discriminate.
  - destruct i as [|i].
    + left; congruence.
    + right; eauto.
Qed.

Lemma get_lt (s : string) (i : nat) :
  (i < String.length s)%nat -> exists c, String.get i s = Some c.
Proof.
  revert i; induction s as [|a s IH]; intros i H; simpl in *.
  - lia.
  - destruct i as [|i]; [eauto | apply IH; lia].
Qed.

Lemma utf8_scan_ascii (s : string) :
  forallb (fun c => (N_of_ascii c <? 128)%N) (list_ascii_of_string s) = true ->
  utf8_scan 0 128 191 s = true.
Proof.
  induction s as [|a s IH]; simpl; [reflexivity|].
  rewrite andb_true_iff; intros [-> H]; auto.
Qed.

Lemma lowercase_alnum_ascii (c : ascii) :
  lowercase_alnum c = true -> (N_of_ascii c <? 128)%N = true.
Proof.
  unfold lowercase_alnum; cbv zeta; intros H.
  apply N.ltb_lt.
  apply orb_true_iff in H as [H|H]; apply andb_true_iff in H as [_ H];
    apply N.leb_le in H; lia.
Qed.

Lemma is_token_utf8 (s : str) : is_token s = true -> utf8_valid s = true.
Proof.
  unfold is_token; rewrite andb_true_iff; intros [_ H].
  apply utf8_scan_ascii.
  rewrite forallb_forall in *; intros c Hc.
  apply lowercase_alnum_ascii; auto.
Qed.

Lemma is_token_nonempty (s : str) : is_token s = true -> s <> "".
Proof. intros H ->; discriminate. Qed.

Lemma alphabet_lowercase_alnum (c : ascii) :
  In c (list_ascii_of_string (ascii_lowercase +:+ digits)) ->
  lowercase_alnum c = true.
Proof.
  revert c; apply forallb_forall; reflexivity.
Qed.

Lemma truthy_Some (v : option bytes) :
  truthy v = true -> exists b, v = Some b /\ b <> "".
Proof.
  destruct v as [[|a b]|]; simpl; try discriminate.
  intros _; eexists; split; [reflexivity | discriminate].
Qed.

Lemma truthy_nonempty (b : bytes) : b <> "" -> truthy (Some b) = true.
Proof. destruct b; [congruence | reflexivity]. Qed.

(** ** The random source *)

Lemma choice_returns (seq : str) (w : World) :
  seq <> "" ->
  exists c w', choice seq w = Return c w'
               /\ In c (list_ascii_of_string seq) /\ only_draws w w'.
Proof.
  intros Hne. unfold choice.
  destruct (Nat.eqb_spec (String.length seq) 0) as [H0|H0].
  - destruct seq; [congruence | discriminate].
  - unfold bind, randbelow.
    destruct (get_lt seq (random w 0 mod String.length seq)) as [c Hc].
    { apply Nat.mod_upper_bound; assumption. }
    rewrite Hc. exists c; eexists; split; [reflexivity|].
    split; [eapply get_In; eassumption | split; reflexivity].
Qed.

Lemma join_choice_returns (seq : str) (n : nat) (w : World) :
  seq <> "" ->
  exists s w', join_choice seq n w = Return s w'
               /\ String.length s = n
               /\ (forall c, In c (list_ascii_of_string s) ->
                             In c (list_ascii_of_string seq))
               /\ only_draws w w'.
Proof.
  intros Hne. revert w; induction n as [|n IH]; intros w; simpl.
  - exists "", w; repeat split; simpl; tauto.
  - destruct (choice_returns seq w Hne) as (c & w1 & Hc & Hin & Hs1 & Hl1).
    destruct (IH w1) as (s & w2 & Hj & Hlen & Hall & Hs2 & Hl2).
    exists (String c s), w2. unfold bind; rewrite Hc, Hj.
    split; [reflexivity|]. split; [simpl; congruence|].
    split; [|split; congruence].
    intros c' [<-|H]; auto.
Qed.

Lemma fresh_token (w : World) :
  exists t w', join_choice (ascii_lowercase +:+ digits) 16 w = Return t w'
               /\ is_token t = true /\ only_draws w w'.
Proof.
  destruct (join_choice_returns (ascii_lowercase +:+ digits) 16 w)
    as (t & w' & Hj & Hlen & Hall & Hd); [discriminate|].
  exists t, w'; split; [assumption|]; split; [|assumption].
  unfold is_token; rewrite Hlen; simpl.
  apply forallb_forall; intros c Hc.
  apply alphabet_lowercase_alnum; auto.
Qed.

(** ** The store *)

Lemma GET_SET_eq k v ex r : 0 < ex -> GET k (SET k v ex r) = Some v.
Proof.
  intros Hex; unfold GET, SET; simpl.
  rewrite lookup_insert_eq; unfold live; simpl.
  destruct (Z.ltb_spec (now r) (now r + ex)); [reflexivity | lia].
Qed.

Lemma GET_SET_ne k k' v ex r : k <> k' -> GET k' (SET k v ex r) = GET k' r.
Proof.
  intros Hne; unfold GET, SET; simpl.
  rewrite lookup_insert_ne by assumption; reflexivity.
Qed.

Lemma TTL_SET_eq k v ex r : 0 < ex -> TTL k (SET k v ex r) = ex.
Proof.
  intros Hex; unfold TTL, SET; simpl.
  rewrite lookup_insert_eq; unfold live; simpl.
  destruct (Z.ltb_spec (now r) (now r + ex)); lia.
Qed.

Lemma TTL_SET_ne k k' v ex r : k <> k' -> TTL k' (SET k v ex r) = TTL k' r.
Proof.
  intros Hne; unfold TTL, SET; simpl.
  rewrite lookup_insert_ne by assumption; reflexivity.
Qed.

Lemma stored_token_ok_SET_other k v ex r :
  k <> TOKEN_KEY -> stored_token_ok (SET k v ex r) = stored_token_ok r.
Proof.
  intros Hne; unfold stored_token_ok.
  rewrite GET_SET_ne by assumption; reflexivity.
Qed.

Lemma stored_token_ok_SET_token t r :
  is_token t = true -> stored_token_ok (SET TOKEN_KEY t TOKEN_LIVE_TIME r) = true.
Proof.
  intros Ht; unfold stored_token_ok.
  rewrite GET_SET_eq by reflexivity.
  rewrite Ht; apply orb_true_r.
Qed.

(** Time passing only lets entries expire. *)
Lemma GET_advance k d r :
  0 <= d -> GET k (advance d r) = None \/ GET k (advance d r) = GET k r.
Proof.
  intros Hd; unfold GET, advance, live; simpl.
  destruct (db r !! k) as [[v [dl|]]|]; simpl; auto.
  destruct (Z.ltb_spec (now r + d) dl); auto.
  destruct (Z.ltb_spec (now r) dl); auto; lia.
Qed.

Lemma stored_token_ok_advance d r :
  0 <= d -> stored_token_ok r = true -> stored_token_ok (advance d r) = true.
Proof.
  intros Hd Hok; unfold stored_token_ok in *.
  destruct (GET_advance TOKEN_KEY d r Hd) as [-> | ->]; auto.
Qed.

(** ** [get_token], case by case *)


Lemma get_token_no_store (w : World) :
  redisdb w = None -> get_token w = Return "12345678" w.
Proof.
  intros H; unfold get_token; py_unfold; py_store H; reflexivity.
Qed.

Lemma get_token_stored (w : World) (r : Redis) (b : bytes) :
  redisdb w = Some r -> GET TOKEN_KEY r = Some b -> b <> "" ->
  get_token w = decode b w.
Proof.
  intros Hr Hb Hne.
  unfold get_token; py_unfold; py_store Hr; py_store Hr; rewrite Hb.
  rewrite truthy_nonempty by assumption; reflexivity.
Qed.

Lemma get_token_generated (w : World) (r : Redis) :
  redisdb w = Some r -> truthy (GET TOKEN_KEY r) = false ->
  exists t w1,
    join_choice (ascii_lowercase +:+ digits) 16 w = Return t w1
    /\ is_token t = true
    /\ get_token w =
         Return t {| redisdb := Some (SET TOKEN_KEY t TOKEN_LIVE_TIME r);
                     random := random w1; log := log w |}.
Proof.
  intros Hr Hf.
  destruct (fresh_token w) as (t & w1 & Hj & Ht & Hs & Hl).
  exists t, w1; split; [assumption|]; split; [assumption|].
  unfold get_token; py_unfold; py_store Hr; py_store Hr.
  rewrite Hf, Hj, (is_token_utf8 t Ht); cbv beta iota.
  rewrite Hs, Hr, Hl; reflexivity.
Qed.

(** [get_token] returns whenever the stored token, if any, is UTF-8 text. *)
Lemma get_token_returns (w : World) :
  token_decodable w = true -> exists t w', get_token w = Return t w'.
Proof.
  unfold token_decodable; intros Hd.
  destruct (redisdb w) as [r|] eqn:Hr.
  - destruct (truthy (GET TOKEN_KEY r)) eqn:Ht.
    + destruct (truthy_Some _ Ht) as (b & Hb & Hne).
      rewrite Hb in Hd.
      rewrite (get_token_stored w r b Hr Hb Hne); unfold decode.
      rewrite Hd; eexists _, _; reflexivity.
    + destruct (get_token_generated w r Hr Ht) as (t & w1 & _ & _ & ->).
      eexists _, _; reflexivity.
  - rewrite (get_token_no_store w Hr); eexists _, _; reflexivity.
Qed.

(** What a call of [get_token] that returns [t] leaves behind: the next
    call, made at once, returns [t] again and changes nothing. *)
Lemma get_token_settled (w w1 : World) (t : str) :
  get_token w = Return t w1 -> get_token w1 = Return t w1.
Proof.
  intros H.
  destruct (redisdb w) as [r|] eqn:Hr.
  - destruct (truthy (GET TOKEN_KEY r)) eqn:Ht.
    + destruct (truthy_Some _ Ht) as (b & Hb & Hne).
      rewrite (get_token_stored w r b Hr Hb Hne) in H.
      assert (w1 = w) as ->.
      { unfold decode in H; destruct (utf8_valid b); inversion H; auto. }
      rewrite (get_token_stored w r b Hr Hb Hne); assumption.
    + destruct (get_token_generated w r Hr Ht) as (t' & w' & _ & Htok & E).
      rewrite E in H; inversion H; subst t' w1; clear H.
      erewrite get_token_stored;
        [ | reflexivity | apply GET_SET_eq; reflexivity
          | apply is_token_nonempty; assumption ].
      unfold decode; rewrite (is_token_utf8 t Htok); reflexivity.
  - rewrite (get_token_no_store w Hr) in H; inversion H; subst.
    apply get_token_no_store; assumption.
Qed.

(** [token_is_valid] is [get_token], a comparison and one log record. *)
Lemma token_is_valid_Return (token t : str) (w w1 : World) :
  get_token w = Return t w1 ->
  token_is_valid token w =
    Return (String.eqb token t)
      {| redisdb := redisdb w1; random := random w1;
         log := log w1 ++ [{| levelname := DEBUG;
                              message := "token is valid --> "
                                         +:+ str_of_bool (String.eqb token t) |}] |}.
Proof.
  intros H; unfold token_is_valid; py_unfold; rewrite H; reflexivity.
Qed.

Lemma token_is_valid_Raise (token : str) (w w1 : World) (e : exn) :
  get_token w = Raise e w1 -> token_is_valid token w = Raise e w1.
Proof.
  intros H; unfold token_is_valid; py_unfold; rewrite H; reflexivity.
Qed.

(** The only write of [get_token] is the token it generates. *)
Lemma get_token_store (w w1 : World) (r : Redis) (t : str) :
  redisdb w = Some r -> get_token w = Return t w1 ->
  redisdb w1 = Some r
  \/ (truthy (GET TOKEN_KEY r) = false
      /\ redisdb w1 = Some (SET TOKEN_KEY t TOKEN_LIVE_TIME r)).
Proof.
  intros Hr H.
  destruct (truthy (GET TOKEN_KEY r)) eqn:Ht.
  - destruct (truthy_Some _ Ht) as (b & Hb & Hne).
    rewrite (get_token_stored w r b Hr Hb Hne) in H.
    unfold decode in H; destruct (utf8_valid b); inversion H; subst; auto.
  - destruct (get_token_generated w r Hr Ht) as (t' & w' & _ & _ & E).
    rewrite E in H; inversion H; subst; auto.
Qed.

(** ** The token authority *)

(** C3: with the store unreachable, [get_token] returns the fixed fallback
    ['12345678'] and leaves the world (store, random source, log) as it
    was; it does not raise, and it returns that same string in every other
    world without a store, whatever its random source and log are. *)
Theorem get_token_unreachable (w : World) :
  redisdb w = None ->
  get_token w = Return "12345678" w
  /\ forall w', redisdb w' = None ->
                returned (get_token w') = returned (get_token w).
Proof.
  intros H; split; [apply get_token_no_store; assumption|].
  intros w' H'.
  rewrite (get_token_no_store w H), (get_token_no_store w' H'); reflexivity.
Qed.

Lemma get_token_unreachable_witness :
  get_token no_store = Return "12345678" no_store
  /\ forall w', redisdb w' = None ->
                returned (get_token w') = returned (get_token no_store).
Proof. apply (get_token_unreachable no_store); reflexivity. Defined.

(** C10: with the store unreachable, [token_is_valid] returns a boolean that
    is true exactly when the candidate is the fallback ['12345678'], and
    the store stays unreachable. *)
Theorem token_is_valid_unreachable (candidate : str) (w : World) :
  redisdb w = None ->
  exists (b : bool) (w' : World),
    token_is_valid candidate w = Return b w'
    /\ (b = true <-> candidate = "12345678")
    /\ redisdb w' = None.
Proof.
  intros H.
  rewrite (token_is_valid_Return candidate _ w w (get_token_no_store w H)).
  eexists _, _; split; [reflexivity|]; split; [|exact H].
  apply String.eqb_eq.
Qed.

Lemma token_is_valid_unreachable_witness :
  exists (b : bool) (w' : World),
    token_is_valid "12345678" no_store = Return b w'
    /\ (b = true <-> "12345678" = "12345678")
    /\ redisdb w' = None.
Proof. apply (token_is_valid_unreachable "12345678" no_store); reflexivity. Defined.

(** C5: in every world and for every candidate, [token_is_valid] does what
    [get_token] does in that world and answers by comparison: when
    [get_token] returns [t], the answer is true exactly when the candidate
    equals [t], the store and the random source are those [get_token]
    leaves, and the log gains the one debug record; when [get_token]
    raises, so does [token_is_valid]. *)
Theorem token_is_valid_iff_current (candidate : str) (w : World) :
  match get_token w with
  | Return t w1 =>
      exists (b : bool) (w' : World),
        token_is_valid candidate w = Return b w'
        /\ (b = true <-> candidate = t)
        /\ redisdb w' = redisdb w1
        /\ random w' = random w1
        /\ log w' = (log w1 ++ [{| levelname := DEBUG;
                                   message := "token is valid --> "
                                              +:+ str_of_bool b |}])%list
  | Raise e w1 => token_is_valid candidate w = Raise e w1
  end.
Proof.
  destruct (get_token w) as [t w1|e w1] eqn:H.
  - rewrite (token_is_valid_Return candidate t w w1 H).
    eexists _, _; split; [reflexivity|].
    split; [apply String.eqb_eq|]. repeat split.
  - apply token_is_valid_Raise; assumption.
Qed.

(** C8: in every world, reachable store or not, once [get_token] has
    returned [t], [token_is_valid t] called at once returns true; and
    [get_token] does return whenever the stored token, if there is a live
    one, is UTF-8 text. *)
Theorem token_is_valid_of_get_token (w : World) :
  (forall t w1, get_token w = Return t w1 ->
                exists w2, token_is_valid t w1 = Return true w2)
  /\ (token_decodable w = true -> exists t w1, get_token w = Return t w1).
Proof.
  split.
  - intros t w1 H.
    rewrite (token_is_valid_Return t t w1 w1 (get_token_settled w w1 t H)).
    rewrite String.eqb_refl; eexists; reflexivity.
  - apply get_token_returns.
Qed.

Lemma token_is_valid_of_get_token_witness :
  exists t w1 w2,
    get_token empty_store = Return t w1
    /\ token_is_valid t w1 = Return true w2.
Proof.
  destruct (token_is_valid_of_get_token empty_store) as [Hvalid Hreturns].
  destruct (Hreturns eq_refl) as (t & w1 & H).
  destruct (Hvalid t w1 H) as (w2 & H2).
  exists t, w1, w2; split; assumption.
Defined.

(** C7: when the store is reachable and holds a token (a non-empty value
    that is UTF-8 text) which is still there [d] seconds later, the call of
    [get_token] now and the call [d] seconds later return that same token,
    and neither changes the world. *)
Theorem get_token_twice (w : World) (r : Redis) (b : bytes) (d : Z) :
  redisdb w = Some r ->
  GET TOKEN_KEY r = Some b -> b <> "" -> utf8_valid b = true ->
  GET TOKEN_KEY (advance d r) = Some b ->
  get_token w = Return b w
  /\ get_token (elapse d w) = Return b (elapse d w).
Proof.
  intros Hr Hb Hne Hutf Hlater; split.
  - rewrite (get_token_stored w r b Hr Hb Hne).
    unfold decode; rewrite Hutf; reflexivity.
  - rewrite (get_token_stored (elapse d w) (advance d r) b); try assumption.
    + unfold decode; rewrite Hutf; reflexivity.
    + unfold elapse; simpl; rewrite Hr; reflexivity.
Qed.

(** With a reachable store whose token entry is in order, [get_token]
    returns a token of the generated shape and leaves the entry in order. *)
Lemma get_token_in_order (w : World) (r : Redis) :
  redisdb w = Some r -> stored_token_ok r = true ->
  exists t w' r',
    get_token w = Return t w'
    /\ is_token t = true
    /\ redisdb w' = Some r'
    /\ stored_token_ok r' = true.
Proof.
  intros Hr Hok.
  destruct (truthy (GET TOKEN_KEY r)) eqn:Ht.
  - destruct (truthy_Some _ Ht) as (b & Hb & Hne).
    pose proof Hok as Htok; unfold stored_token_ok in Htok.
    rewrite Hb in Htok; apply orb_true_iff in Htok as [H|Htok];
      [apply String.eqb_eq in H; contradiction|].
    exists b, w, r; rewrite (get_token_stored w r b Hr Hb Hne).
    unfold decode; rewrite (is_token_utf8 b Htok); auto.
  - destruct (get_token_generated w r Hr Ht) as (t & w1 & _ & Htok & E).
    eexists t, _, _; split; [exact E|].
    split; [assumption|]; split; [reflexivity|].
    apply stored_token_ok_SET_token; assumption.
Qed.

(** C4, as amended: with the store reachable and the token entry either
    absent, expired, empty or of the generated shape, [get_token] returns a
    string of sixteen lowercase letters and digits, which is then the live
    value of the token entry; when it had to generate the token (no live
    non-empty value), the store is the old one with the token written under
    [TOKEN_KEY] with a time to live of [TOKEN_LIVE_TIME] = 600 seconds. *)
Theorem get_token_shape (w : World) (r : Redis) :
  redisdb w = Some r -> stored_token_ok r = true ->
  exists t w' r',
    get_token w = Return t w'
    /\ is_token t = true
    /\ redisdb w' = Some r'
    /\ GET TOKEN_KEY r' = Some t
    /\ stored_token_ok r' = true
    /\ (truthy (GET TOKEN_KEY r) = false ->
        r' = SET TOKEN_KEY t TOKEN_LIVE_TIME r /\ TTL TOKEN_KEY r' = 600).
Proof.
  intros Hr Hok.
  destruct (truthy (GET TOKEN_KEY r)) eqn:Ht.
  - destruct (truthy_Some _ Ht) as (b & Hb & Hne).
    assert (is_token b = true) as Htok.
    { unfold stored_token_ok in Hok; rewrite Hb in Hok.
      apply orb_true_iff in Hok as [H|H]; [|assumption].
      apply String.eqb_eq in H; contradiction. }
    exists b, w, r. rewrite (get_token_stored w r b Hr Hb Hne).
    unfold decode; rewrite (is_token_utf8 b Htok).
    repeat split; try assumption; discriminate.
  - destruct (get_token_generated w r Hr Ht) as (t & w1 & _ & Htok & E).
    eexists t, _, _; split; [exact E|].
    assert (GET TOKEN_KEY (SET TOKEN_KEY t TOKEN_LIVE_TIME r) = Some t) as HG
      by (apply GET_SET_eq; reflexivity).
    repeat split; try assumption.
    + unfold stored_token_ok; rewrite HG, Htok; apply orb_true_r.
    + apply TTL_SET_eq; reflexivity.
Qed.

(** ** The ping ledger, the probe handler and the suspicion check *)

Section link_token_properties.

Variable secret_hash : str -> str.
Variable Config : Type.
Variable get_cfg : Config.
Variable get_real_ip : Request -> str.
Variable get_network : str -> Config -> Network.

Lemma get_ping_key_not_TOKEN_KEY (network : Network) (request : Request) :
  TOKEN_KEY <> get_ping_key secret_hash network request.
Proof. unfold get_ping_key; simpl; discriminate. Qed.

Lemma pretty_one : pretty 1 = "1".
Proof. reflexivity. Qed.

(** [is_suspicious] in one equation. *)
Lemma is_suspicious_run (network : Network) (request : Request)
  (renew : bool) (w : World) :
  is_suspicious secret_hash network request renew w =
    match redisdb w with
    | None => Return false w
    | Some r =>
        let ping_key := get_ping_key secret_hash network request in
        if truthy (GET ping_key r) then
          Return false
            {| redisdb :=
                 Some (if renew then SET ping_key "1" PING_LIVE_TIME r
                       else r);
               random := random w;
               log := log w ++
                 [{| levelname := DEBUG;
                     message := "found ping for (client) network "
                                +:+ compressed network
                                +:+ " -> " +:+ ping_key |}] |}
        else
          Return true
            {| redisdb := Some r;
               random := random w;
               log := log w ++
                 [{| levelname := WARNING;
                     message := "missing ping (IP: "
                                +:+ compressed network
                                +:+ ") / request: " +:+ ping_key |}] |}
    end.
Proof.
  unfold is_suspicious; py_unfold.
  destruct (redisdb w) as [r|] eqn:Hr; cbv beta iota zeta; [|reflexivity].
  rewrite Hr; cbv beta iota.
  destruct (truthy (GET (get_ping_key secret_hash network request) r));
    cbv beta iota delta [negb]; [|rewrite Hr; reflexivity].
  destruct renew; py_unfold; rewrite Hr; cbv beta iota;
    rewrite ?pretty_one; reflexivity.
Qed.

(** [ping] in one equation. *)
Lemma ping_run (request : Request) (token : str) (w : World) :
  ping secret_hash Config get_cfg get_real_ip get_network request token w =
    match redisdb w with
    | None => Return tt w
    | Some _ =>
        match get_token w with
        | Raise e w1 => Raise e w1
        | Return t w1 =>
            let valid := String.eqb token t in
            let real_ip := get_real_ip request in
            let network := get_network real_ip get_cfg in
            let ping_key := get_ping_key secret_hash network request in
            let log1 :=
              (log w1 ++ [{| levelname := DEBUG;
                             message := "token is valid --> "
                                        +:+ str_of_bool valid |}])%list in
            if valid then
              match redisdb w1 with
              | Some r1 =>
                  Return tt
                    {| redisdb := Some (SET ping_key "1" PING_LIVE_TIME r1);
                       random := random w1;
                       log := log1 ++
                         [{| levelname := DEBUG;
                             message :=
                               "store ping_key for (client) network "
                               +:+ compressed network
                               +:+ " (IP " +:+ real_ip
                               +:+ ") -> " +:+ ping_key |}] |}
              | None =>
                  Raise ConnectionError
                    {| redisdb := None; random := random w1;
                       log := log1 ++
                         [{| levelname := DEBUG;
                             message :=
                               "store ping_key for (client) network "
                               +:+ compressed network
                               +:+ " (IP " +:+ real_ip
                               +:+ ") -> " +:+ ping_key |}] |}
              end
            else
              Return tt
                {| redisdb := redisdb w1; random := random w1;
                   log := log1 |}
        end
    end.
Proof.
  unfold ping, bind at 1, redisdb_client.
  destruct (redisdb w) as [r|] eqn:Hr; [|reflexivity].
  unfold bind at 1.
  destruct (get_token w) as [t w1|e w1] eqn:Hg.
  - rewrite (token_is_valid_Return token t w w1 Hg); cbv zeta.
    destruct (String.eqb token t); cbv beta iota delta [negb];
      [|reflexivity].
    py_unfold; cbv beta iota zeta; rewrite pretty_one.
    destruct (redisdb w1); reflexivity.
  - rewrite (token_is_valid_Raise token w w1 e Hg); reflexivity.
Qed.

(** *** The shape of the stored token is an invariant of the module *)

Lemma step_token_ok (w w' : World) :
  step secret_hash Config get_cfg get_real_ip get_network w w' ->
  world_token_ok w = true -> world_token_ok w' = true.
Proof.
  assert (Hget : forall w, world_token_ok w = true ->
                           world_token_ok (world_of (get_token w)) = true).
  { clear; intros w Hok; unfold world_token_ok in *.
    destruct (redisdb w) as [r|] eqn:Hr.
    - destruct (get_token_in_order w r Hr Hok)
        as (t & w1 & r1 & -> & _ & Hr1 & Hok1).
      simpl; rewrite Hr1; assumption.
    - rewrite (get_token_no_store w Hr); simpl; rewrite Hr; reflexivity. }
  intros Hstep Hok; destruct Hstep as [w|token w|network request renew w
                                       |request token w|d w Hd].
  - apply Hget; assumption.
  - specialize (Hget w Hok).
    destruct (get_token w) as [t w1|e w1] eqn:Hg.
    + rewrite (token_is_valid_Return token t w w1 Hg); exact Hget.
    + rewrite (token_is_valid_Raise token w w1 e Hg); exact Hget.
  - rewrite is_suspicious_run; unfold world_token_ok in *.
    destruct (redisdb w) as [r|] eqn:Hr; cbv zeta;
      [|simpl; rewrite Hr; reflexivity].
    destruct (truthy _); simpl; [|assumption].
    destruct renew; [|assumption].
    rewrite stored_token_ok_SET_other; [assumption|].
    intros E; symmetry in E; revert E; apply get_ping_key_not_TOKEN_KEY.
  - specialize (Hget w Hok).
    rewrite ping_run; unfold world_token_ok in *.
    destruct (redisdb w) as [r|] eqn:Hr;
      [|simpl; rewrite Hr; reflexivity].
    destruct (get_token w) as [t w1|e w1]; [|exact Hget]; cbv zeta.
    simpl in Hget.
    destruct (String.eqb token t); [|exact Hget].
    destruct (redisdb w1) as [r1|]; simpl; [|reflexivity].
    rewrite stored_token_ok_SET_other; [assumption|].
    intros E; symmetry in E; revert E; apply get_ping_key_not_TOKEN_KEY.
  - unfold world_token_ok, elapse in *; simpl.
    destruct (redisdb w) as [r|]; simpl; [|reflexivity].
    apply stored_token_ok_advance; assumption.
Qed.

(** From a world whose token entry is in order (an empty store, say), the
    module and the passing of time only lead to such worlds, and there
    [get_token] returns a token of the generated shape or, without a
    store, the fallback. *)
Lemma reachable_token_ok (w w' : World) :
  rtc (step secret_hash Config get_cfg get_real_ip get_network) w w' ->
  world_token_ok w = true -> world_token_ok w' = true.
Proof.
  induction 1 as [|w w1 w2 Hstep _ IH]; [auto|].
  intros Hok; apply IH; eapply step_token_ok; eassumption.
Qed.

(** X14: the shape of the token is an invariant of the module.  From a
    world whose token entry is in order (an empty store, say), whatever
    calls of [get_token], [token_is_valid], [ping] and [is_suspicious] are
    made and however much time passes in between, [get_token] returns
    without raising, and what it returns is a string of sixteen lowercase
    letters and digits when the store is reachable and the fallback
    ['12345678'] when it is not. *)
Lemma reachable_get_token (w w' : World) :
  rtc (step secret_hash Config get_cfg get_real_ip get_network) w w' ->
  world_token_ok w = true ->
  exists t w'', get_token w' = Return t w''
                /\ match redisdb w' with
                   | Some _ => is_token t = true
                   | None => t = "12345678"
                   end.
Proof.
  intros Hreach Hok.
  pose proof (reachable_token_ok w w' Hreach Hok) as Hok'.
  unfold world_token_ok in Hok'.
  destruct (redisdb w') as [r|] eqn:Hr.
  - destruct (get_token_in_order w' r Hr Hok') as (t & w1 & r1 & E & Ht & _).
    eauto.
  - rewrite (get_token_no_store w' Hr); eauto.
Qed.

(** C6: the ping key is a function of the compressed network, the
    Accept-Language header and the User-Agent header alone: two calls
    whose inputs agree on these three yield the same key, whatever else
    the two requests carry. *)
Theorem get_ping_key_deterministic (network1 network2 : Network)
  (request1 request2 : Request) :
  compressed network1 = compressed network2 ->
  headers_get request1 "Accept-Language" ""
  = headers_get request2 "Accept-Language" "" ->
  headers_get request1 "User-Agent" ""
  = headers_get request2 "User-Agent" "" ->
  get_ping_key secret_hash network1 request1
  = get_ping_key secret_hash network2 request2.
Proof.
  intros Hn Hl Ha; unfold get_ping_key; rewrite Hn, Hl, Ha; reflexivity.
Qed.

(** C1, as amended: [is_suspicious] always returns a boolean; it returns
    false only if the store is unreachable, or the store is reachable and
    a record that has not expired exists at the derived key; it returns
    true if the store is reachable and no such record exists; and it
    returns false, changing nothing, if the store is unreachable. *)
Theorem is_suspicious_verdict (network : Network) (request : Request)
  (renew : bool) (w : World) :
  (exists (b : bool) (w' : World),
      is_suspicious secret_hash network request renew w = Return b w')
  /\ (forall w',
        is_suspicious secret_hash network request renew w = Return false w' ->
        redisdb w = None
        \/ exists r v,
             redisdb w = Some r
             /\ GET (get_ping_key secret_hash network request) r = Some v)
  /\ (forall r,
        redisdb w = Some r ->
        GET (get_ping_key secret_hash network request) r = None ->
        exists w',
          is_suspicious secret_hash network request renew w = Return true w')
  /\ (redisdb w = None ->
      is_suspicious secret_hash network request renew w = Return false w).
Proof.
  rewrite is_suspicious_run.
  destruct (redisdb w) as [r|] eqn:Hr; cbv zeta.
  - destruct (truthy (GET (get_ping_key secret_hash network request) r))
      eqn:Ht.
    + destruct (truthy_Some _ Ht) as (v & Hv & _).
      split; [eexists _, _; reflexivity|].
      split; [intros w' _; right; exists r, v; auto|].
      split; [|discriminate].
      intros r' E Hnone; inversion E; subst r'.
      rewrite Hnone in Hv; discriminate.
    + split; [eexists _, _; reflexivity|].
      split; [intros w' H; discriminate|].
      split; [|discriminate].
      intros r' _ _; eexists; reflexivity.
  - split; [eexists _, _; reflexivity|].
    split; [intros w' _; left; reflexivity|].
    split; [intros r H; discriminate | reflexivity].
Qed.

(** C9: when the store is reachable and holds a record with a non-empty
    value that has not expired at the derived key, [is_suspicious] with
    [renew] set returns false and writes the marker there with the full
    time to live of [PING_LIVE_TIME] = 3600 seconds, so that the remaining
    time to live is 3600; without [renew] it returns false and leaves the
    store, and with it the remaining time to live, as it was. *)
Theorem is_suspicious_renew (network : Network) (request : Request)
  (w : World) (r : Redis) (v : bytes) :
  redisdb w = Some r ->
  GET (get_ping_key secret_hash network request) r = Some v -> v <> "" ->
  (exists w' r',
      is_suspicious secret_hash network request true w = Return false w'
      /\ redisdb w' = Some r'
      /\ r' = SET (get_ping_key secret_hash network request) "1"
                 PING_LIVE_TIME r
      /\ TTL (get_ping_key secret_hash network request) r' = 3600)
  /\ (exists w',
        is_suspicious secret_hash network request false w = Return false w'
        /\ redisdb w' = Some r).
Proof.
  intros Hr Hv Hne; rewrite !is_suspicious_run, Hr; cbv zeta.
  rewrite Hv, (truthy_nonempty v Hne); split.
  - eexists _, _; split; [reflexivity|]; split; [reflexivity|].
    split; [reflexivity | apply TTL_SET_eq; reflexivity].
  - eexists; split; reflexivity.
Qed.

(** C2, as amended: [ping] creates or refreshes no ping record unless the
    store is reachable and the token equals the current token.  With the
    store unreachable it changes nothing.  With the store reachable and a
    token other than the one [get_token] returns, the store it leaves is
    the one [get_token] leaves: the old store, or the old store with the
    newly generated token under [TOKEN_KEY]; every other key reads as
    before.  With the store reachable and the token equal to the current
    one, it writes the marker ['1'] at the derived ping key with a time to
    live of [PING_LIVE_TIME] = 3600 seconds. *)
Theorem ping_writes (request : Request) (token : str) (w : World) :
  (redisdb w = None ->
   ping secret_hash Config get_cfg get_real_ip get_network request token w
   = Return tt w)
  /\ (forall r t w1,
        redisdb w = Some r -> get_token w = Return t w1 -> token <> t ->
        exists w' r',
          ping secret_hash Config get_cfg get_real_ip get_network
            request token w = Return tt w'
          /\ redisdb w' = redisdb w1
          /\ redisdb w' = Some r'
          /\ (r' = r \/ r' = SET TOKEN_KEY t TOKEN_LIVE_TIME r)
          /\ forall k, k <> TOKEN_KEY ->
                       GET k r' = GET k r /\ TTL k r' = TTL k r)
  /\ (forall r t w1,
        redisdb w = Some r -> get_token w = Return t w1 -> token = t ->
        let ping_key :=
          get_ping_key secret_hash
            (get_network (get_real_ip request) get_cfg) request in
        exists w' r1,
          ping secret_hash Config get_cfg get_real_ip get_network
            request token w = Return tt w'
          /\ redisdb w1 = Some r1
          /\ redisdb w' = Some (SET ping_key "1" PING_LIVE_TIME r1)
          /\ GET ping_key (SET ping_key "1" PING_LIVE_TIME r1) = Some "1"
          /\ TTL ping_key (SET ping_key "1" PING_LIVE_TIME r1) = 3600).
Proof.
  rewrite ping_run; split; [intros ->; reflexivity|]; split.
  - intros r t w1 Hr Hg Hne; rewrite Hr, Hg; cbv zeta.
    apply String.eqb_neq in Hne; rewrite Hne.
    destruct (get_token_store w w1 r t Hr Hg) as [H|[_ H]].
    + exists {| redisdb := redisdb w1; random := random w1;
                log := log w1 ++ [{| levelname := DEBUG;
                                     message := "token is valid --> "
                                                +:+ str_of_bool false |}] |}, r.
      simpl; repeat split; auto.
    + exists {| redisdb := redisdb w1; random := random w1;
                log := log w1 ++ [{| levelname := DEBUG;
                                     message := "token is valid --> "
                                                +:+ str_of_bool false |}] |},
        (SET TOKEN_KEY t TOKEN_LIVE_TIME r).
      simpl; repeat split; auto.
      * apply GET_SET_ne; congruence.
      * apply TTL_SET_ne; congruence.
  - intros r t w1 Hr Hg ->; rewrite Hr, Hg; cbv zeta.
    rewrite String.eqb_refl.
    destruct (get_token_store w w1 r t Hr Hg) as [H|[_ H]]; rewrite H;
      eexists _, _; (split; [reflexivity|]); (split; [reflexivity|]);
      (split; [reflexivity|]);
      (split; [apply GET_SET_eq | apply TTL_SET_eq]); reflexivity.
Qed.

End link_token_properties.

(** ** The properties at the sample worlds *)

(** Bytes under [TOKEN_KEY] that are not UTF-8 text make [get_token] raise:
    this is the one way it can fail to return. *)
Example get_token_garbled :
  get_token garbled_store = Raise UnicodeDecodeError garbled_store.
Proof. reflexivity. Qed.

Lemma get_token_twice_witness :
  get_token token_store = Return "dkry5cjqx4bipw3a" token_store
  /\ get_token (elapse 300 token_store)
     = Return "dkry5cjqx4bipw3a" (elapse 300 token_store).
Proof.
  apply (get_token_twice token_store token_redis "dkry5cjqx4bipw3a" 300);
    [reflexivity | reflexivity | discriminate | reflexivity | reflexivity].
Defined.

Lemma token_is_valid_iff_current_witness :
  exists (b : bool) (w' : World),
    token_is_valid "bogus" token_store = Return b w'
    /\ (b = true <-> "bogus" = "dkry5cjqx4bipw3a")
    /\ redisdb w' = redisdb token_store
    /\ random w' = random token_store
    /\ log w' = [{| levelname := DEBUG;
                    message := "token is valid --> " +:+ str_of_bool b |}].
Proof. exact (token_is_valid_iff_current "bogus" token_store). Defined.

(** C4, as stated, fails where the store is unreachable: the string
    [get_token] returns there has eight characters, not sixteen. *)
Lemma get_token_fallback_is_no_token :
  get_token no_store = Return "12345678" no_store
  /\ String.length "12345678" = 8%nat
  /\ is_token "12345678" = false.
Proof. repeat split. Qed.

Lemma get_token_shape_witness :
  exists t w' r',
    get_token empty_store = Return t w'
    /\ is_token t = true
    /\ redisdb w' = Some r'
    /\ GET TOKEN_KEY r' = Some t
    /\ stored_token_ok r' = true
    /\ (truthy (GET TOKEN_KEY empty_redis) = false ->
        r' = SET TOKEN_KEY t TOKEN_LIVE_TIME empty_redis
        /\ TTL TOKEN_KEY r' = 600).
Proof.
  apply (get_token_shape empty_store empty_redis); reflexivity.
Defined.

Lemma get_ping_key_deterministic_witness :
  get_ping_key sample_hash sample_network sample_request
  = get_ping_key sample_hash sample_network sample_request'.
Proof.
  apply (get_ping_key_deterministic sample_hash
           sample_network sample_network sample_request sample_request');
    reflexivity.
Defined.

(** C1, as stated, fails where the store is unreachable: [is_suspicious]
    returns false there, although no store is reachable and no ping record
    exists. *)
Lemma is_suspicious_false_without_store :
  is_suspicious sample_hash sample_network sample_request false no_store
  = Return false no_store
  /\ ~ (exists r v,
          redisdb no_store = Some r
          /\ GET (get_ping_key sample_hash sample_network sample_request) r
             = Some v).
Proof.
  split; [reflexivity|].
  intros (r & v & H & _); discriminate.
Qed.

Lemma is_suspicious_verdict_witness :
  (exists w',
      is_suspicious sample_hash sample_network sample_request false
        empty_store = Return true w')
  /\ is_suspicious sample_hash sample_network sample_request false no_store
     = Return false no_store.
Proof.
  split.
  - apply (proj1 (proj2 (proj2
              (is_suspicious_verdict sample_hash sample_network
                 sample_request false empty_store))) empty_redis);
      reflexivity.
  - apply (proj2 (proj2 (proj2
              (is_suspicious_verdict sample_hash sample_network
                 sample_request false no_store))));
      reflexivity.
Defined.

Lemma is_suspicious_renew_witness :
  (exists w' r',
      is_suspicious sample_hash sample_network sample_request true ping_store
      = Return false w'
      /\ redisdb w' = Some r'
      /\ r' = SET (get_ping_key sample_hash sample_network sample_request)
                 "1" PING_LIVE_TIME
                 ping_redis
      /\ TTL (get_ping_key sample_hash sample_network sample_request) r'
         = 3600)
  /\ (exists w',
        is_suspicious sample_hash sample_network sample_request false
          ping_store = Return false w'
        /\ redisdb w'
           = Some ping_redis).
Proof.
  apply (is_suspicious_renew sample_hash sample_network sample_request
           ping_store ping_redis "1");
    [reflexivity | reflexivity | discriminate].
Defined.

(** C2, as stated, fails on a reachable store without a token: called with
    a token that is not valid, [ping] still writes to the store, for the
    validity check generates the token and stores it. *)
Lemma ping_invalid_token_writes :
  returned (token_is_valid "bogus" empty_store) = Some false
  /\ GET TOKEN_KEY empty_redis = None
  /\ returned (ping sample_hash unit tt sample_real_ip sample_network_of
                 sample_request "bogus" empty_store) = Some tt
  /\ option_map (GET TOKEN_KEY)
       (redisdb (world_of (ping sample_hash unit tt sample_real_ip
                             sample_network_of sample_request "bogus"
                             empty_store)))
     = Some (Some "dkry5cjqx4bipw3a")
  /\ redisdb (world_of (ping sample_hash unit tt sample_real_ip
                          sample_network_of sample_request "bogus"
                          empty_store))
     <> redisdb empty_store.
Proof.
  split; [vm_compute; reflexivity|].
  split; [vm_compute; reflexivity|].
  split; [vm_compute; reflexivity|].
  split; [vm_compute; reflexivity|].
  intros H; apply (f_equal (option_map (GET TOKEN_KEY))) in H.
  vm_compute in H; discriminate.
Qed.

Lemma ping_writes_witness :
  ping sample_hash unit tt sample_real_ip sample_network_of
    sample_request "bogus" no_store = Return tt no_store
  /\ (exists w' r',
        ping sample_hash unit tt sample_real_ip sample_network_of
          sample_request "bogus" empty_store = Return tt w'
        /\ redisdb w' = redisdb (world_of (get_token empty_store))
        /\ redisdb w' = Some r'
        /\ (r' = empty_redis
            \/ r' = SET TOKEN_KEY "dkry5cjqx4bipw3a" TOKEN_LIVE_TIME
                      empty_redis)
        /\ forall k, k <> TOKEN_KEY ->
                     GET k r' = GET k empty_redis
                     /\ TTL k r' = TTL k empty_redis)
  /\ (let ping_key :=
        get_ping_key sample_hash
          (sample_network_of (sample_real_ip sample_request) tt)
          sample_request in
      exists w' r1,
        ping sample_hash unit tt sample_real_ip sample_network_of
          sample_request "dkry5cjqx4bipw3a" token_store = Return tt w'
        /\ redisdb token_store = Some r1
        /\ redisdb w' = Some (SET ping_key "1" PING_LIVE_TIME r1)
        /\ GET ping_key (SET ping_key "1" PING_LIVE_TIME r1) = Some "1"
        /\ TTL ping_key (SET ping_key "1" PING_LIVE_TIME r1) = 3600).
Proof.
  split; [|split].
  - apply (proj1 (ping_writes sample_hash unit tt sample_real_ip
                    sample_network_of sample_request "bogus" no_store));
      reflexivity.
  - apply (proj1 (proj2 (ping_writes sample_hash unit tt sample_real_ip
                           sample_network_of sample_request "bogus"
                           empty_store))
             empty_redis "dkry5cjqx4bipw3a"
             (world_of (get_token empty_store)));
      [reflexivity | reflexivity | discriminate].
  - apply (proj2 (proj2 (ping_writes sample_hash unit tt sample_real_ip
                           sample_network_of sample_request
                           "dkry5cjqx4bipw3a" token_store))
             token_redis "dkry5cjqx4bipw3a" token_store);
      reflexivity.
Defined.

(** * Further properties of the module *)

(** ** The store as time passes *)

Lemma GET_advance_SET k v ex d r :
  GET k (advance d (SET k v ex r)) = if d <? ex then Some v else None.
Proof.
  unfold GET, advance, SET, live; simpl.
  rewrite lookup_insert_eq; simpl.
  destruct (Z.ltb_spec (now r + d) (now r + ex)), (Z.ltb_spec d ex);
    auto; lia.
Qed.

Lemma GET_advance_SET_ne k k' v ex d r :
  k <> k' -> GET k' (advance d (SET k v ex r)) = GET k' (advance d r).
Proof.
  intros Hne; unfold GET, advance, SET; simpl.
  rewrite lookup_insert_ne by assumption; reflexivity.
Qed.

(** What [get_token] returns with a reachable store is, afterwards, the
    live value of the token entry: non-empty UTF-8 text. *)
Lemma get_token_current (w w1 : World) (r : Redis) (t : str) :
  redisdb w = Some r -> get_token w = Return t w1 ->
  exists r1,
    redisdb w1 = Some r1
    /\ GET TOKEN_KEY r1 = Some t /\ t <> "" /\ utf8_valid t = true
    /\ now r1 = now r.
Proof.
  intros Hr H.
  destruct (truthy (GET TOKEN_KEY r)) eqn:Ht.
  - destruct (truthy_Some _ Ht) as (b & Hb & Hne).
    rewrite (get_token_stored w r b Hr Hb Hne) in H; unfold decode in H.
    destruct (utf8_valid b) eqn:Hu; inversion H; subst.
    exists r; auto.
  - destruct (get_token_generated w r Hr Ht) as (t' & w' & _ & Htok & E).
    rewrite E in H; inversion H; subst t' w1; clear H.
    eexists; split; [reflexivity|].
    split; [apply GET_SET_eq; reflexivity|].
    split; [apply is_token_nonempty; assumption|].
    split; [apply is_token_utf8; assumption | reflexivity].
Qed.

(** With a live, non-empty, well-formed token in the store, [get_token]
    returns it and changes nothing. *)
Lemma get_token_of_stored (w : World) (r : Redis) (t : str) :
  redisdb w = Some r -> GET TOKEN_KEY r = Some t -> t <> "" ->
  utf8_valid t = true -> get_token w = Return t w.
Proof.
  intros Hr Hg Hne Hu.
  rewrite (get_token_stored w r t Hr Hg Hne); unfold decode.
  rewrite Hu; reflexivity.
Qed.

(** ** The token and the random source *)

(** One draw: the character [random.choice] returns and the world it
    leaves. *)
Lemma choice_draw (seq : str) (w : World) :
  seq <> "" ->
  exists c,
    String.get (random w 0 mod String.length seq) seq = Some c
    /\ choice seq w
       = Return c {| redisdb := redisdb w;
                     random := fun i => random w (S i); log := log w |}.
Proof.
  intros Hne; unfold choice.
  destruct (Nat.eqb_spec (String.length seq) 0) as [H0|H0].
  - destruct seq; [congruence | discriminate].
  - unfold bind, randbelow.
    destruct (get_lt seq (random w 0 mod String.length seq)) as [c Hc].
    { apply Nat.mod_upper_bound; assumption. }
    rewrite Hc; exists c; split; reflexivity.
Qed.

(** [n] draws: character [i] of the result is the one the [i]-th draw
    picks, and the random source has moved on by [n]. *)
Lemma join_choice_draws (seq : str) (n : nat) (w : World) :
  seq <> "" ->
  exists s w',
    join_choice seq n w = Return s w'
    /\ (forall i, (i < n)%nat ->
                  String.get i s
                  = String.get (random w i mod String.length seq) seq)
    /\ (forall i, random w' i = random w (n + i)%nat).
Proof.
  intros Hne; revert w; induction n as [|n IH]; intros w; simpl.
  - exists "", w; split; [reflexivity|]; split; [lia | reflexivity].
  - destruct (choice_draw seq w Hne) as (c & Hc & E).
    destruct (IH {| redisdb := redisdb w;
                    random := fun i => random w (S i); log := log w |})
      as (s & w' & Hj & Hget & Hrand).
    exists (String c s), w'; unfold bind; rewrite E, Hj.
    split; [reflexivity|]; split.
    + intros [|i] Hi; simpl; [symmetry; exact Hc|].
      rewrite Hget by lia; reflexivity.
    + intros i; rewrite Hrand; reflexivity.
Qed.

(** X10: a generated token is read off the random source.  When
    [get_token] finds no live, non-empty token in a reachable store, it
    makes exactly sixteen draws: character [i] of the token it returns is
    the character of [abcdefghijklmnopqrstuvwxyz0123456789] at position
    (draw [i] modulo 36), the random source has moved on by sixteen draws,
    and the logger is handed nothing. *)
Theorem generated_token_draws (w : World) (r : Redis) :
  redisdb w = Some r -> truthy (GET TOKEN_KEY r) = false ->
  exists t w',
    get_token w = Return t w'
    /\ (forall i, (i < 16)%nat ->
                  String.get i t
                  = String.get (random w i mod 36)
                      (ascii_lowercase +:+ digits))
    /\ (forall i, random w' i = random w (16 + i)%nat)
    /\ log w' = log w.
Proof.
  intros Hr Hf.
  destruct (get_token_generated w r Hr Hf) as (t & w1 & Hj & _ & E).
  destruct (join_choice_draws (ascii_lowercase +:+ digits) 16 w)
    as (t' & w1' & Hj' & Hget & Hrand); [discriminate|].
  rewrite Hj in Hj'; inversion Hj'; subst t' w1'.
  eexists _, _; split; [exact E|].
  split; [exact Hget|]; split; [exact Hrand | reflexivity].
Qed.

(** X11: the life of a token.  A token [get_token] has just generated is
    returned again, with nothing changed, by every call made less than
    [TOKEN_LIVE_TIME] = 600 seconds later; a call made 600 seconds later or
    more finds it gone, generates the next token from the next sixteen
    draws and stores that one for 600 seconds. *)
Theorem token_lifetime (w w1 : World) (r : Redis) (t : str) (d : Z) :
  redisdb w = Some r -> truthy (GET TOKEN_KEY r) = false ->
  get_token w = Return t w1 ->
  (d < TOKEN_LIVE_TIME ->
   get_token (elapse d w1) = Return t (elapse d w1))
  /\ (TOKEN_LIVE_TIME <= d ->
      exists t' w2,
        get_token (elapse d w1) = Return t' w2
        /\ is_token t' = true
        /\ redisdb w2
           = Some (SET TOKEN_KEY t' TOKEN_LIVE_TIME
                     (advance d (SET TOKEN_KEY t TOKEN_LIVE_TIME r)))
        /\ (forall i, (i < 16)%nat ->
                      String.get i t'
                      = String.get (random w1 i mod 36)
                          (ascii_lowercase +:+ digits))
        /\ (forall i, random w2 i = random w1 (16 + i)%nat)).
Proof.
  intros Hr Hf Hg.
  destruct (get_token_generated w r Hr Hf) as (t0 & w0 & _ & Htok & E).
  rewrite E in Hg; inversion Hg; subst t0 w1; clear Hg.
  set (r1 := SET TOKEN_KEY t TOKEN_LIVE_TIME r).
  set (w1 := {| redisdb := Some r1; random := random w0; log := log w |}).
  assert (redisdb (elapse d w1) = Some (advance d r1)) as Hr1 by reflexivity.
  assert (GET TOKEN_KEY (advance d r1)
          = if d <? TOKEN_LIVE_TIME then Some t else None) as HG
    by apply GET_advance_SET.
  split; intros Hd.
  - apply (get_token_of_stored (elapse d w1) (advance d r1)).
    + exact Hr1.
    + rewrite HG. destruct (Z.ltb_spec d TOKEN_LIVE_TIME); [reflexivity|lia].
    + apply is_token_nonempty; assumption.
    + apply is_token_utf8; assumption.
  - assert (truthy (GET TOKEN_KEY (advance d r1)) = false) as Hf'.
    { rewrite HG. destruct (Z.ltb_spec d TOKEN_LIVE_TIME); [lia|reflexivity]. }
    destruct (get_token_generated (elapse d w1) (advance d r1) Hr1 Hf')
      as (t' & w2 & Hj & Htok' & E').
    destruct (join_choice_draws (ascii_lowercase +:+ digits) 16 (elapse d w1))
      as (t'' & w2' & Hj' & Hget & Hrand); [discriminate|].
    rewrite Hj in Hj'; inversion Hj'; subst t'' w2'.
    eexists _, _; split; [exact E'|].
    split; [assumption|]; split; [reflexivity|].
    split; [exact Hget | exact Hrand].
Qed.

(** ** Keys *)

Lemma append_bracket_inj (s1 s2 : string) :
  s1 +:+ "]" = s2 +:+ "]" -> s1 = s2.
Proof.
  revert s2; induction s1 as [|a s1 IH]; intros [|b s2] H; simpl in H.
  - reflexivity.
  - inversion H as [[Ha Hs]]. destruct s2; discriminate.
  - inversion H as [[Ha Hs]]. destruct s1; discriminate.
  - inversion H; f_equal; auto.
Qed.

(** ** Expiry *)

Lemma expiring_SET (k : string) (v : bytes) (ex : Z) (r : Redis) :
  ex <= (if String.eqb k TOKEN_KEY then TOKEN_LIVE_TIME else PING_LIVE_TIME) ->
  expiring r -> expiring (SET k v ex r).
Proof.
  intros Hex Hr k' e; unfold SET; simpl.
  destruct (decide (k = k')) as [<-|Hne].
  - rewrite lookup_insert_eq; intros H; inversion H; subst; simpl.
    eexists; split; [reflexivity | lia].
  - rewrite lookup_insert_ne by assumption; apply Hr.
Qed.

Lemma expiring_advance (d : Z) (r : Redis) :
  0 <= d -> expiring r -> expiring (advance d r).
Proof.
  intros Hd Hr k e H; unfold advance in *; simpl in *.
  destruct (Hr k e H) as (dl & Hdl & Hle).
  exists dl; split; [assumption | lia].
Qed.

Lemma expiring_TTL (r : Redis) (k : string) :
  expiring r ->
  TTL k r <= (if String.eqb k TOKEN_KEY then TOKEN_LIVE_TIME
              else PING_LIVE_TIME)
  /\ TTL k r <> -1.
Proof.
  intros Hr; unfold TTL, live.
  destruct (db r !! k) as [e|] eqn:He.
  - destruct (Hr k e He) as (dl & -> & Hle).
    destruct (Z.ltb_spec (now r) dl); [split; lia|].
    destruct (String.eqb k TOKEN_KEY); split;
      unfold TOKEN_LIVE_TIME, PING_LIVE_TIME; lia.
  - destruct (String.eqb k TOKEN_KEY); split;
      unfold TOKEN_LIVE_TIME, PING_LIVE_TIME; lia.
Qed.

(** The store [get_token] leaves, whether it returns or raises. *)
Lemma get_token_world (w : World) :
  redisdb (world_of (get_token w)) = redisdb w
  \/ exists r t,
       redisdb w = Some r
       /\ redisdb (world_of (get_token w))
          = Some (SET TOKEN_KEY t TOKEN_LIVE_TIME r).
Proof.
  destruct (redisdb w) as [r|] eqn:Hr.
  - destruct (truthy (GET TOKEN_KEY r)) eqn:Ht.
    + destruct (truthy_Some _ Ht) as (b & Hb & Hne).
      rewrite (get_token_stored w r b Hr Hb Hne); unfold decode.
      destruct (utf8_valid b); left; exact Hr.
    + destruct (get_token_generated w r Hr Ht) as (t & w1 & _ & _ & ->).
      right; exists r, t; split; reflexivity.
  - rewrite (get_token_no_store w Hr); left; exact Hr.
Qed.

Section link_token_further.

Variable secret_hash : str -> str.
Variable Config : Type.
Variable get_cfg : Config.
Variable get_real_ip : Request -> str.
Variable get_network : str -> Config -> Network.

(** What [is_suspicious] answers is read off the store alone. *)
Lemma is_suspicious_returned (network : Network) (request : Request)
  (renew : bool) (w : World) :
  returned (is_suspicious secret_hash network request renew w)
  = Some match redisdb w with
         | Some r =>
             negb (truthy (GET (get_ping_key secret_hash network request) r))
         | None => false
         end.
Proof.
  rewrite is_suspicious_run.
  destruct (redisdb w) as [r|]; cbv zeta; [|reflexivity].
  destruct (truthy _); reflexivity.
Qed.

Lemma ping_key_fresh (network : Network) (request : Request) :
  get_ping_key secret_hash network request <> TOKEN_KEY.
Proof.
  intros E; symmetry in E; revert E; apply get_ping_key_not_TOKEN_KEY.
Qed.

(** X1: a probe that carries the current token is remembered for
    [PING_LIVE_TIME] seconds.  After [ping] has been called with the token
    [get_token] returns, a check [d] seconds later for the network the probe
    came from and a request with the same Accept-Language and User-Agent
    headers answers "not suspicious" as long as [d] is below 3600, and
    "suspicious" from 3600 seconds on. *)
Theorem ping_then_is_suspicious (request request' : Request)
  (network : Network) (renew : bool) (w w1 : World) (r : Redis) (t : str)
  (d : Z) :
  redisdb w = Some r -> get_token w = Return t w1 ->
  compressed network
  = compressed (get_network (get_real_ip request) get_cfg) ->
  headers_get request' "Accept-Language" ""
  = headers_get request "Accept-Language" "" ->
  headers_get request' "User-Agent" ""
  = headers_get request "User-Agent" "" ->
  exists w',
    ping secret_hash Config get_cfg get_real_ip get_network request t w
    = Return tt w'
    /\ returned (is_suspicious secret_hash network request' renew
                   (elapse d w'))
       = Some (PING_LIVE_TIME <=? d).
Proof.
  intros Hr Hg Hn Hl Ha.
  destruct (get_token_current w w1 r t Hr Hg) as (r1 & Hr1 & _).
  rewrite ping_run, Hr, Hg; cbv zeta; rewrite String.eqb_refl, Hr1.
  eexists; split; [reflexivity|].
  rewrite is_suspicious_returned; unfold elapse; cbn [redisdb fmap option_fmap option_map].
  assert (get_ping_key secret_hash network request'
          = get_ping_key secret_hash
              (get_network (get_real_ip request) get_cfg) request) as ->
    by (unfold get_ping_key; rewrite Hn, Hl, Ha; reflexivity).
  rewrite GET_advance_SET; f_equal.
  unfold PING_LIVE_TIME.
  destruct (Z.ltb_spec d 3600), (Z.leb_spec 3600 d); try lia; reflexivity.
Qed.

(** X2: the expiry slides.  When a check with [renew] set finds the ping
    record, the record is good for another [PING_LIVE_TIME] seconds from
    that check, however little time it had left: a later check answers
    "not suspicious" below 3600 seconds and "suspicious" from then on. *)
Theorem renew_slides (network : Network) (request : Request) (renew' : bool)
  (w : World) (r : Redis) (v : bytes) (d : Z) :
  redisdb w = Some r ->
  GET (get_ping_key secret_hash network request) r = Some v -> v <> "" ->
  exists w',
    is_suspicious secret_hash network request true w = Return false w'
    /\ returned (is_suspicious secret_hash network request renew'
                   (elapse d w'))
       = Some (PING_LIVE_TIME <=? d).
Proof.
  intros Hr Hv Hne.
  rewrite is_suspicious_run, Hr; cbv zeta.
  rewrite Hv, (truthy_nonempty v Hne).
  eexists; split; [reflexivity|].
  rewrite is_suspicious_returned; unfold elapse; cbn [redisdb fmap option_fmap option_map].
  rewrite GET_advance_SET; f_equal.
  unfold PING_LIVE_TIME.
  destruct (Z.ltb_spec d 3600), (Z.leb_spec 3600 d); try lia; reflexivity.
Qed.

(** X3: a check without [renew] only reads.  It leaves the store and the
    random source as they were, so whatever check comes later, of whatever
    client and after whatever time, answers as if this one had not been
    made. *)
Theorem check_without_renew_reads_only (network network' : Network)
  (request request' : Request) (renew' : bool) (d : Z) (w : World) :
  redisdb (world_of (is_suspicious secret_hash network request false w))
  = redisdb w
  /\ random (world_of (is_suspicious secret_hash network request false w))
     = random w
  /\ returned (is_suspicious secret_hash network' request' renew'
                 (elapse d (world_of (is_suspicious secret_hash network
                                        request false w))))
     = returned (is_suspicious secret_hash network' request' renew'
                   (elapse d w)).
Proof.
  assert (redisdb (world_of (is_suspicious secret_hash network request
                               false w)) = redisdb w) as Hs.
  { rewrite is_suspicious_run.
    destruct (redisdb w) as [r|] eqn:Hr; cbv zeta; [|exact Hr].
    destruct (truthy _); reflexivity. }
  split; [exact Hs|]; split.
  - rewrite is_suspicious_run.
    destruct (redisdb w) as [r|]; cbv zeta; [|reflexivity].
    destruct (truthy _); reflexivity.
  - rewrite !is_suspicious_returned; unfold elapse; cbn [redisdb].
    rewrite Hs; reflexivity.
Qed.

(** X4: a check that answers "suspicious" writes nothing, with or without
    [renew]: it creates no ping record, leaves store and random source as
    they were, and hands exactly one record to the logger, at level
    WARNING, naming the network and the ping key. *)
Theorem suspicious_writes_nothing (network : Network) (request : Request)
  (renew : bool) (w w' : World) :
  is_suspicious secret_hash network request renew w = Return true w' ->
  redisdb w' = redisdb w
  /\ random w' = random w
  /\ log w' = (log w ++
      [{| levelname := WARNING;
          message := "missing ping (IP: " +:+ compressed network
                     +:+ ") / request: "
                     +:+ get_ping_key secret_hash network request |}])%list.
Proof.
  rewrite is_suspicious_run.
  destruct (redisdb w) as [r|] eqn:Hr; cbv zeta; [|discriminate].
  destruct (truthy _); [discriminate|].
  intros H; inversion H; subst; auto.
Qed.

(** X5: an entry with an empty value at the ping key counts as no ping:
    the check answers "suspicious" and, even with [renew] set, does not
    renew the entry. *)
Theorem empty_ping_value_is_missing (network : Network) (request : Request)
  (renew : bool) (w : World) (r : Redis) :
  redisdb w = Some r ->
  GET (get_ping_key secret_hash network request) r = Some "" ->
  exists w',
    is_suspicious secret_hash network request renew w = Return true w'
    /\ redisdb w' = Some r.
Proof.
  intros Hr Hv; rewrite is_suspicious_run, Hr; cbv zeta; rewrite Hv.
  eexists; split; reflexivity.
Qed.

(** X6: whatever a check does, it does to its own ping key.  The clock,
    the random source and every entry under another key are left as they
    were; in particular the token is never touched. *)
Theorem is_suspicious_frame (network : Network) (request : Request)
  (renew : bool) (w : World) (r : Redis) :
  redisdb w = Some r ->
  exists r',
    redisdb (world_of (is_suspicious secret_hash network request renew w))
    = Some r'
    /\ now r' = now r
    /\ (forall k, k <> get_ping_key secret_hash network request ->
                  db r' !! k = db r !! k)
    /\ GET TOKEN_KEY r' = GET TOKEN_KEY r
    /\ random (world_of (is_suspicious secret_hash network request renew w))
       = random w.
Proof.
  intros Hr; rewrite is_suspicious_run, Hr; cbv zeta.
  destruct (truthy _); [destruct renew|]; eexists;
    (split; [reflexivity|]); (split; [reflexivity|]);
    (split; [|split; [|reflexivity]]); try reflexivity.
  - intros k Hk; unfold SET; simpl.
    rewrite lookup_insert_ne by congruence; reflexivity.
  - apply GET_SET_ne, ping_key_fresh.
Qed.

(** X7: bytes under the token key that are not UTF-8 text are not handled:
    [get_token], [token_is_valid] and [ping] then raise
    [UnicodeDecodeError], whatever the candidate token is, and leave the
    world as it was. *)
Theorem garbled_token_raises (request : Request) (candidate : str)
  (w : World) (r : Redis) (b : bytes) :
  redisdb w = Some r -> GET TOKEN_KEY r = Some b -> b <> "" ->
  utf8_valid b = false ->
  get_token w = Raise UnicodeDecodeError w
  /\ token_is_valid candidate w = Raise UnicodeDecodeError w
  /\ ping secret_hash Config get_cfg get_real_ip get_network
       request candidate w = Raise UnicodeDecodeError w.
Proof.
  intros Hr Hb Hne Hu.
  assert (get_token w = Raise UnicodeDecodeError w) as Hg.
  { rewrite (get_token_stored w r b Hr Hb Hne); unfold decode.
    rewrite Hu; reflexivity. }
  split; [exact Hg|]; split.
  - apply token_is_valid_Raise; exact Hg.
  - rewrite ping_run, Hr, Hg; reflexivity.
Qed.

(** X8: with a reachable store whose token entry is in order, a candidate
    that does not have the shape of a token (the fallback ['12345678'], the
    empty string, anything but sixteen lowercase letters and digits) is
    never valid, and a probe that carries it leaves every entry but the
    token as it was: no ping record is written. *)
Theorem malformed_token_rejected (request : Request) (candidate : str)
  (w : World) (r : Redis) :
  redisdb w = Some r -> stored_token_ok r = true ->
  is_token candidate = false ->
  returned (token_is_valid candidate w) = Some false
  /\ exists w' r',
      ping secret_hash Config get_cfg get_real_ip get_network
        request candidate w = Return tt w'
      /\ redisdb w' = Some r'
      /\ forall k, k <> TOKEN_KEY -> GET k r' = GET k r.
Proof.
  intros Hr Hok Hc.
  destruct (get_token_in_order w r Hr Hok) as (t & w1 & r1 & Hg & Ht & Hr1 & _).
  assert (String.eqb candidate t = false) as Hne.
  { apply String.eqb_neq; intros ->; congruence. }
  split.
  - rewrite (token_is_valid_Return candidate t w w1 Hg), Hne; reflexivity.
  - rewrite ping_run, Hr, Hg; cbv zeta; rewrite Hne.
    eexists _, r1; split; [reflexivity|]; split; [exact Hr1|].
    intros k Hk.
    destruct (get_token_store w w1 r t Hr Hg) as [H|[_ H]];
      rewrite Hr1 in H; inversion H; subst; [reflexivity|].
    apply GET_SET_ne; congruence.
Qed.

(** X9: a probe does not use the token up.  After [ping] has accepted the
    token, the token is still the current one: [token_is_valid] accepts it
    again at once, and a probe of any other request that carries it is
    accepted too and gets its ping record, while the record of the first
    probe stays. *)
Theorem token_serves_many (request request2 : Request) (w w1 : World)
  (r : Redis) (t : str) :
  redisdb w = Some r -> get_token w = Return t w1 ->
  exists w',
    ping secret_hash Config get_cfg get_real_ip get_network request t w
    = Return tt w'
    /\ returned (token_is_valid t w') = Some true
    /\ exists w'' r'',
        ping secret_hash Config get_cfg get_real_ip get_network
          request2 t w' = Return tt w''
        /\ redisdb w'' = Some r''
        /\ GET (get_ping_key secret_hash
                  (get_network (get_real_ip request2) get_cfg) request2) r''
           = Some "1"
        /\ GET (get_ping_key secret_hash
                  (get_network (get_real_ip request) get_cfg) request) r''
           = Some "1".
Proof.
  intros Hr Hg.
  destruct (get_token_current w w1 r t Hr Hg)
    as (r1 & Hr1 & Ht & Hne & Hu & _).
  rewrite ping_run, Hr, Hg; cbv zeta; rewrite String.eqb_refl, Hr1.
  eexists; split; [reflexivity|].
  set (key := get_ping_key secret_hash
                (get_network (get_real_ip request) get_cfg) request).
  set (w' := {| redisdb := Some (SET key "1" PING_LIVE_TIME r1) |}).
  assert (get_token w' = Return t w') as Hg'.
  { apply (get_token_of_stored w' (SET key "1" PING_LIVE_TIME r1));
      try assumption; [reflexivity|].
    rewrite GET_SET_ne by apply ping_key_fresh; assumption. }
  split.
  - rewrite (token_is_valid_Return t t w' w' Hg'), String.eqb_refl.
    reflexivity.
  - rewrite ping_run, Hg'; cbv zeta; rewrite String.eqb_refl.
    cbn [redisdb w'].
    eexists _, _; split; [reflexivity|]; split; [reflexivity|].
    split; [apply GET_SET_eq; reflexivity|].
    set (key2 := get_ping_key secret_hash
                   (get_network (get_real_ip request2) get_cfg) request2).
    destruct (decide (key2 = key)) as [->|Hk].
    + apply GET_SET_eq; reflexivity.
    + rewrite GET_SET_ne by assumption. apply GET_SET_eq; reflexivity.
Qed.

(** X12: with a hash without collisions, two requests share a ping key
    exactly when the compressed network, the Accept-Language header and the
    User-Agent header, written one after the other, read the same.  The
    three fields are not kept apart: clients whose fields differ but
    concatenate to the same text share one ping record. *)
Theorem get_ping_key_injective (network1 network2 : Network)
  (request1 request2 : Request) :
  (forall a b, secret_hash a = secret_hash b -> a = b) ->
  get_ping_key secret_hash network1 request1
  = get_ping_key secret_hash network2 request2
  <-> compressed network1
      +:+ headers_get request1 "Accept-Language" ""
      +:+ headers_get request1 "User-Agent" ""
      = compressed network2
        +:+ headers_get request2 "Accept-Language" ""
        +:+ headers_get request2 "User-Agent" "".
Proof.
  intros Hinj; unfold get_ping_key; split.
  - intros H; simpl in H; inversion H as [H'].
    apply Hinj, append_bracket_inj; exact H'.
  - intros ->; reflexivity.
Qed.

(** One step keeps every entry expiring. *)
Lemma step_expiring (w w' : World) :
  step secret_hash Config get_cfg get_real_ip get_network w w' ->
  world_expiring w -> world_expiring w'.
Proof.
  assert (Hping : forall network request r,
             expiring r ->
             expiring (SET (get_ping_key secret_hash network request) "1"
                         PING_LIVE_TIME r)).
  { intros network request r Hr; apply expiring_SET; [|assumption].
    destruct (String.eqb_spec (get_ping_key secret_hash network request)
                TOKEN_KEY); unfold TOKEN_LIVE_TIME, PING_LIVE_TIME; [|lia].
    exfalso; eapply ping_key_fresh; eassumption. }
  assert (Hget : forall w, world_expiring w ->
                           world_expiring (world_of (get_token w))).
  { clear Hping; intros w0 Hok; unfold world_expiring in *.
    destruct (get_token_world w0) as [->|(r & t & Hr & ->)]; [assumption|].
    rewrite Hr in Hok; apply expiring_SET; [|assumption].
    rewrite String.eqb_refl; lia. }
  intros Hstep Hok; destruct Hstep as [w|token w|network request renew w
                                       |request token w|d w Hd].
  - apply Hget; assumption.
  - specialize (Hget w Hok).
    destruct (get_token w) as [t w1|e w1] eqn:Hg.
    + rewrite (token_is_valid_Return token t w w1 Hg); exact Hget.
    + rewrite (token_is_valid_Raise token w w1 e Hg); exact Hget.
  - rewrite is_suspicious_run; unfold world_expiring in *.
    destruct (redisdb w) as [r|] eqn:Hr; cbv zeta;
      [|simpl; rewrite Hr; exact I].
    destruct (truthy _); simpl; [|assumption].
    destruct renew; [apply Hping|]; assumption.
  - specialize (Hget w Hok).
    rewrite ping_run; unfold world_expiring in *.
    destruct (redisdb w) as [r|] eqn:Hr; [|simpl; rewrite Hr; exact I].
    destruct (get_token w) as [t w1|e w1]; [|exact Hget]; cbv zeta.
    simpl in Hget.
    destruct (String.eqb token t); [|exact Hget].
    destruct (redisdb w1) as [r1|]; simpl; [|exact I].
    apply Hping; assumption.
  - unfold world_expiring, elapse in *; simpl.
    destruct (redisdb w) as [r|]; simpl; [|exact I].
    apply expiring_advance; assumption.
Qed.

(** X13: the module never stores anything for good.  From a world in which
    every entry expires (an empty store, say), whatever calls of
    [get_token], [token_is_valid], [ping] and [is_suspicious] are made and
    however much time passes in between, every entry of the store still
    expires: no key is without expiry, the token has at most
    [TOKEN_LIVE_TIME] = 600 seconds left and every other key at most
    [PING_LIVE_TIME] = 3600 seconds. *)
Theorem reachable_expiring (w w' : World) :
  rtc (step secret_hash Config get_cfg get_real_ip get_network) w w' ->
  world_expiring w ->
  world_expiring w'
  /\ forall r', redisdb w' = Some r' ->
                forall k, TTL k r' <= PING_LIVE_TIME
                          /\ TTL k r' <> -1
                          /\ TTL TOKEN_KEY r' <= TOKEN_LIVE_TIME.
Proof.
  intros Hreach Hok.
  assert (world_expiring w') as Hok'.
  { induction Hreach as [|w w1 w2 Hstep _ IH]; [assumption|].
    apply IH; eapply step_expiring; eassumption. }
  split; [assumption|].
  intros r' Hr' k; unfold world_expiring in Hok'; rewrite Hr' in Hok'.
  destruct (expiring_TTL r' k Hok') as [Hle Hne].
  destruct (expiring_TTL r' TOKEN_KEY Hok') as [Hle' _].
  rewrite String.eqb_refl in Hle'.
  split; [|split; assumption].
  destruct (String.eqb k TOKEN_KEY);
    unfold TOKEN_LIVE_TIME, PING_LIVE_TIME in *; lia.
Qed.

(** X15: a probe vouches for its own fingerprint only.  Whatever the
    token, the store and the outcome of [ping], a check for a request whose
    ping key differs from the key of the probing request answers after the
    probe as it did before. *)
Theorem ping_vouches_for_itself_only (request request' : Request)
  (network' : Network) (token : str) (renew' : bool) (w : World) :
  get_ping_key secret_hash network' request'
  <> get_ping_key secret_hash
       (get_network (get_real_ip request) get_cfg) request ->
  returned (is_suspicious secret_hash network' request' renew'
              (world_of (ping secret_hash Config get_cfg get_real_ip
                           get_network request token w)))
  = returned (is_suspicious secret_hash network' request' renew' w).
Proof.
  intros Hk; rewrite !is_suspicious_returned, ping_run.
  destruct (redisdb w) as [r|] eqn:Hr; [|simpl; rewrite Hr; reflexivity].
  destruct (get_token w) as [t w1|e w1] eqn:Hg; cbv zeta.
  - assert (exists r1, redisdb w1 = Some r1
                       /\ GET (get_ping_key secret_hash network' request') r1
                          = GET (get_ping_key secret_hash network' request') r)
      as (r1 & Hr1 & HG).
    { destruct (get_token_store w w1 r t Hr Hg) as [H|[_ H]];
        eexists; (split; [exact H|]); [reflexivity|].
      apply GET_SET_ne; intros E; symmetry in E; revert E.
      apply ping_key_fresh. }
    destruct (String.eqb token t); rewrite ?Hr1; cbn [world_of redisdb];
      rewrite ?Hr1; [|rewrite HG; reflexivity].
    rewrite GET_SET_ne by congruence. rewrite HG; reflexivity.
  - assert (w1 = w) as ->.
    { destruct (truthy (GET TOKEN_KEY r)) eqn:Ht.
      - destruct (truthy_Some _ Ht) as (b & Hb & Hne).
        rewrite (get_token_stored w r b Hr Hb Hne) in Hg; unfold decode in Hg.
        destruct (utf8_valid b); inversion Hg; reflexivity.
      - destruct (get_token_generated w r Hr Ht) as (t & w' & _ & _ & E).
        rewrite E in Hg; discriminate. }
    simpl; rewrite Hr; reflexivity.
Qed.

End link_token_further.

(** ** The further properties at the sample worlds *)

Lemma ping_then_is_suspicious_witness :
  exists w',
    ping sample_hash unit tt sample_real_ip sample_network_of
      sample_request "dkry5cjqx4bipw3a" empty_store = Return tt w'
    /\ returned (is_suspicious sample_hash sample_network sample_request'
                   false (elapse 3599 w'))
       = Some (PING_LIVE_TIME <=? 3599).
Proof.
  apply (ping_then_is_suspicious sample_hash unit tt sample_real_ip
           sample_network_of sample_request sample_request' sample_network
           false empty_store (world_of (get_token empty_store)) empty_redis
           "dkry5cjqx4bipw3a" 3599);
    reflexivity.
Defined.

Lemma renew_slides_witness :
  exists w',
    is_suspicious sample_hash sample_network sample_request true ping_store
    = Return false w'
    /\ returned (is_suspicious sample_hash sample_network sample_request
                   false (elapse 3600 w'))
       = Some (PING_LIVE_TIME <=? 3600).
Proof.
  apply (renew_slides sample_hash sample_network sample_request false
           ping_store ping_redis "1" 3600);
    [reflexivity | reflexivity | discriminate].
Defined.

Lemma suspicious_writes_nothing_witness :
  redisdb (world_of (is_suspicious sample_hash sample_network
                       sample_request true empty_store))
  = redisdb empty_store
  /\ random (world_of (is_suspicious sample_hash sample_network
                         sample_request true empty_store))
     = random empty_store
  /\ log (world_of (is_suspicious sample_hash sample_network
                      sample_request true empty_store))
     = (log empty_store ++
        [{| levelname := WARNING;
            message := "missing ping (IP: " +:+ compressed sample_network
                       +:+ ") / request: "
                       +:+ get_ping_key sample_hash sample_network
                             sample_request |}])%list.
Proof.
  apply (suspicious_writes_nothing sample_hash sample_network sample_request
           true empty_store); reflexivity.
Defined.

Lemma empty_ping_value_is_missing_witness :
  exists w',
    is_suspicious sample_hash sample_network sample_request true
      blank_ping_store = Return true w'
    /\ redisdb w' = Some blank_ping_redis.
Proof.
  apply (empty_ping_value_is_missing sample_hash sample_network
           sample_request true blank_ping_store blank_ping_redis);
    reflexivity.
Defined.

Lemma is_suspicious_frame_witness :
  exists r',
    redisdb (world_of (is_suspicious sample_hash sample_network
                         sample_request true ping_store)) = Some r'
    /\ now r' = now ping_redis
    /\ (forall k,
          k <> get_ping_key sample_hash sample_network sample_request ->
          db r' !! k = db ping_redis !! k)
    /\ GET TOKEN_KEY r' = GET TOKEN_KEY ping_redis
    /\ random (world_of (is_suspicious sample_hash sample_network
                           sample_request true ping_store))
       = random ping_store.
Proof.
  apply (is_suspicious_frame sample_hash sample_network sample_request true
           ping_store ping_redis); reflexivity.
Defined.

Lemma garbled_token_raises_witness :
  get_token garbled_store = Raise UnicodeDecodeError garbled_store
  /\ token_is_valid "dkry5cjqx4bipw3a" garbled_store
     = Raise UnicodeDecodeError garbled_store
  /\ ping sample_hash unit tt sample_real_ip sample_network_of
       sample_request "dkry5cjqx4bipw3a" garbled_store
     = Raise UnicodeDecodeError garbled_store.
Proof.
  apply (garbled_token_raises sample_hash unit tt sample_real_ip
           sample_network_of sample_request "dkry5cjqx4bipw3a"
           garbled_store garbled_redis (String (ascii_of_nat 255) ""));
    [reflexivity | reflexivity | discriminate | reflexivity].
Defined.

Lemma malformed_token_rejected_witness :
  returned (token_is_valid "12345678" empty_store) = Some false
  /\ exists w' r',
      ping sample_hash unit tt sample_real_ip sample_network_of
        sample_request "12345678" empty_store = Return tt w'
      /\ redisdb w' = Some r'
      /\ forall k, k <> TOKEN_KEY -> GET k r' = GET k empty_redis.
Proof.
  apply (malformed_token_rejected sample_hash unit tt sample_real_ip
           sample_network_of sample_request "12345678" empty_store
           empty_redis); reflexivity.
Defined.

Lemma token_serves_many_witness :
  exists w',
    ping sample_hash unit tt sample_real_ip sample_network_of
      sample_request "dkry5cjqx4bipw3a" token_store = Return tt w'
    /\ returned (token_is_valid "dkry5cjqx4bipw3a" w') = Some true
    /\ exists w'' r'',
        ping sample_hash unit tt sample_real_ip sample_network_of
          split_request_a "dkry5cjqx4bipw3a" w' = Return tt w''
        /\ redisdb w'' = Some r''
        /\ GET (get_ping_key sample_hash
                  (sample_network_of (sample_real_ip split_request_a) tt)
                  split_request_a) r'' = Some "1"
        /\ GET (get_ping_key sample_hash
                  (sample_network_of (sample_real_ip sample_request) tt)
                  sample_request) r'' = Some "1".
Proof.
  apply (token_serves_many sample_hash unit tt sample_real_ip
           sample_network_of sample_request split_request_a token_store
           token_store token_redis "dkry5cjqx4bipw3a"); reflexivity.
Defined.

Lemma generated_token_draws_witness :
  exists t w',
    get_token empty_store = Return t w'
    /\ (forall i, (i < 16)%nat ->
                  String.get i t
                  = String.get (random empty_store i mod 36)
                      (ascii_lowercase +:+ digits))
    /\ (forall i, random w' i = random empty_store (16 + i)%nat)
    /\ log w' = log empty_store.
Proof.
  apply (generated_token_draws empty_store empty_redis); reflexivity.
Defined.

Lemma token_lifetime_witness :
  get_token (elapse 599 (world_of (get_token empty_store)))
  = Return "dkry5cjqx4bipw3a"
      (elapse 599 (world_of (get_token empty_store)))
  /\ exists t' w2,
      get_token (elapse 600 (world_of (get_token empty_store)))
      = Return t' w2
      /\ is_token t' = true.
Proof.
  split.
  - apply (proj1 (token_lifetime empty_store
                    (world_of (get_token empty_store)) empty_redis
                    "dkry5cjqx4bipw3a" 599
                    eq_refl eq_refl eq_refl)); reflexivity.
  - destruct (proj2 (token_lifetime empty_store
                       (world_of (get_token empty_store)) empty_redis
                       "dkry5cjqx4bipw3a" 600
                       eq_refl eq_refl eq_refl))
      as (t' & w2 & H & Ht & _).
    + discriminate.
    + exists t', w2; split; assumption.
Defined.

Lemma get_ping_key_injective_witness :
  get_ping_key plain_hash sample_network split_request_a
  = get_ping_key plain_hash sample_network split_request_b.
Proof.
  apply (get_ping_key_injective plain_hash sample_network sample_network
           split_request_a split_request_b).
  - intros a b H; exact H.
  - reflexivity.
Defined.

Lemma empty_store_to_busy_store :
  rtc (step sample_hash unit tt sample_real_ip sample_network_of)
    empty_store busy_store.
Proof.
  eapply rtc_l; [apply step_get_token|].
  eapply rtc_l; [apply (step_elapse _ _ _ _ _ 10); discriminate|].
  eapply rtc_l; [apply (step_ping _ _ _ _ _ sample_request
                          "dkry5cjqx4bipw3a")|].
  apply rtc_refl.
Qed.

Lemma reachable_expiring_witness :
  world_expiring busy_store
  /\ forall r', redisdb busy_store = Some r' ->
                forall k, TTL k r' <= PING_LIVE_TIME
                          /\ TTL k r' <> -1
                          /\ TTL TOKEN_KEY r' <= TOKEN_LIVE_TIME.
Proof.
  apply (reachable_expiring sample_hash unit tt sample_real_ip
           sample_network_of empty_store busy_store
           empty_store_to_busy_store).
  intros k e H; simpl in H; rewrite lookup_empty in H; discriminate.
Defined.

Lemma reachable_get_token_witness :
  exists t w'',
    get_token busy_store = Return t w''
    /\ match redisdb busy_store with
       | Some _ => is_token t = true
       | None => t = "12345678"
       end.
Proof.
  apply (reachable_get_token sample_hash unit tt sample_real_ip
           sample_network_of empty_store busy_store
           empty_store_to_busy_store); reflexivity.
Defined.

Lemma ping_vouches_for_itself_only_witness :
  returned (is_suspicious sample_hash sample_network split_request_a true
              (world_of (ping sample_hash unit tt sample_real_ip
                           sample_network_of sample_request
                           "dkry5cjqx4bipw3a" token_store)))
  = returned (is_suspicious sample_hash sample_network split_request_a true
                token_store).
Proof.
  apply (ping_vouches_for_itself_only sample_hash unit tt sample_real_ip
           sample_network_of sample_request split_request_a sample_network
           "dkry5cjqx4bipw3a" true token_store).
  vm_compute; discriminate.
Defined.
